(** * Step results manager: a two-tier cache of pipeline artifacts

    Shallow embedding of [apps/utils/step_results_manager.py].

    The Python module keeps the result of every pipeline step in two
    places: Streamlit's [st.session_state] (a dictionary that lives as
    long as the interactive session) and one pickle file per step under
    an artifacts directory.  The embedding threads both stores, the
    module-level singleton and a trace of file-system calls and printed
    diagnostics through a state-and-exception monad, so that every
    method below reads like its Python source. *)

From stdpp Require Import gmap strings list.

Set Warnings "-register-all".
Local Open Scope string_scope.
Local Open Scope list_scope.

(** ** Python values *)

(** A [pandas.DataFrame], reduced to what [DataFrame.empty] inspects
    (the two axes) plus the cell contents. *)
Record DataFrame := mkDataFrame {
  df_index : list Z;
  df_columns : list string;
  df_values : list (list Z)
}.

(** [DataFrame.empty]: true when any axis has length 0. *)
Definition df_empty (df : DataFrame) : bool :=
  (length (df_index df) =? 0)%nat || (length (df_columns df) =? 0)%nat.

(** The payloads ([Any]) a step may hand to the manager.  A float is
    kept as its IEEE-754 bit pattern; [VObject] stands for an instance
    of any other class (a model, an array, a closure, ...). *)
Inductive value : Type :=
  | VNone
  | VBool (b : bool)
  | VInt (n : Z)
  | VFloat (bits : Z)
  | VStr (s : string)
  | VList (items : list value)
  | VTuple (items : list value)
  | VDict (items : list (value * value))
  | VDataFrame (df : DataFrame)
  | VObject (cls : string) (attrs : list (string * value)).

(** [data is None] / [data is not None]. *)
Definition is_None (data : value) : bool :=
  match data with VNone => true | _ => false end.

(** ** Paths *)

(** A [pathlib.Path] as its list of components. *)
Definition Path : Type := list string.

(** [dir / name]. *)
Definition path_div (dir : Path) (name : string) : Path := dir ++ [name].

Infix "</>" := path_div (at level 40, left associativity).

(** [p.parent]. *)
Definition path_parent (p : Path) : Path := removelast p.

(** The non-empty prefixes of a path, shortest first: the directories
    that [mkdir(parents=True)] walks through, ending with the path itself. *)
Fixpoint path_prefixes_from (base rest : Path) : list Path :=
  match rest with
  | [] => []
  | c :: rest' => (base ++ [c]) :: path_prefixes_from (base ++ [c]) rest'
  end.

Definition path_prefixes (p : Path) : list Path := path_prefixes_from [] p.

(** ** Exceptions and diagnostics *)

Inductive exn : Type :=
  | KeyError (key : string)
  | ValueError (msg : string)
  | FileNotFoundError (p : Path)
  | FileExistsError (p : Path)
  | IsADirectoryError (p : Path)
  | NotADirectoryError (p : Path)
  | PicklingError
  | UnpicklingError.

(** The lines the module prints; the formatted exception text is kept
    as the exception itself. *)
Inductive diag : Type :=
  | WarnUnknownStepKey (step_key : string)
  | ErrorSaving (step_key : string) (e : exn)
  | ErrorLoading (step_key : string) (e : exn)
  | ErrorDeletingFile (step_key : string) (e : exn).

(** What the process did to the outside world, most recent first. *)
Inductive event : Type :=
  | EvExists (p : Path)
  | EvOpenRead (p : Path)
  | EvOpenWrite (p : Path)
  | EvUnlink (p : Path)
  | EvMkdir (p : Path)
  | EvPrint (d : diag).

(** ** The stage catalog *)

(** [StepResultsManager.STEP_MAPPINGS], in declaration order (a Python
    dict iterates in insertion order). *)
Definition STEP_MAPPINGS : list (string * string) :=
  [ ("pruned_interactions", "pruned_interactions.pkl");
    ("feature_encoding", "feature_encoding.pkl");
    ("user_profiles", "user_profiles.pkl");
    ("gnn_graph", "gnn_graph.pkl");
    ("gnn_propagation", "gnn_propagation.pkl");
    ("gnn_training", "gnn_training.pkl");
    ("gnn_predictions", "streamlit_gnn_predictions.pkl");
    ("cbf_predictions", "streamlit_cbf_predictions.pkl");
    ("hybrid_predictions", "streamlit_hybrid_predictions.pkl");
    ("cbf_evaluation_metrics", "cbf_evaluation_metrics.pkl");
    ("gnn_evaluation_metrics", "gnn_evaluation_metrics.pkl");
    ("hybrid_evaluation_metrics", "hybrid_evaluation_metrics.pkl");
    ("personalized_filters", "personalized_filters.pkl");
    ("outfit_recommendations", "outfit_recommendations.pkl");
    ("training_time", "training_time.pkl");
    ("inference_time", "inference_time.pkl");
    ("gnn_training_time", "gnn_training_time.pkl");
    ("gnn_inference_time", "gnn_inference_time.pkl") ].

(** [d[key]] on an insertion-ordered dict with distinct keys. *)
Fixpoint dict_get (d : list (string * string)) (key : string) : option string :=
  match d with
  | [] => None
  | (k, v) :: d' => if decide (k = key) then Some v else dict_get d' key
  end.

(** [key in d]. *)
Definition dict_contains (d : list (string * string)) (key : string) : bool :=
  match dict_get d key with Some _ => true | None => false end.

(** [d.keys()]. *)
Definition dict_keys (d : list (string * string)) : list string := d.*1.

(** ** The validity predicate *)

(** [StepResultsManager._is_valid_data]. *)
Definition _is_valid_data (data : value) : bool :=
  match data with
  | VNone => false
  | VDict items => (0 <? length items)%nat
  | VList items | VTuple items => (0 <? length items)%nat
  | VDataFrame df => negb (df_empty df)
  | _ => true
  end.

(** ** The pickle codec *)

(** [pickle.dump] either writes a complete stream or raises after having
    written a prefix of it; [pickle.load] raises on bytes it cannot
    decode.  The codec is the standard library's, not this module's, so
    the development is parametric in it. *)
Inductive dump_result (blob : Type) : Type :=
  | Dumped (b : blob)
  | DumpFailed (partial : blob).

Arguments Dumped {blob} b.
Arguments DumpFailed {blob} partial.

Class Pickle (blob : Type) : Type := {
  pickle_dump : value → dump_result blob;
  pickle_load : blob → option value
}.

(** The law a codec is expected to obey: what was dumped loads back. *)
Class PickleRoundTrip (blob : Type) `{Pickle blob} : Prop :=
  pickle_load_dump : ∀ v b, pickle_dump v = Dumped b → pickle_load b = Some v.

(** ** The world *)

Inductive node (blob : Type) : Type :=
  | File (content : blob)
  | Dir.

Arguments File {blob} content.
Arguments Dir {blob}.

(** A manager object: its identity and its [artifacts_dir] attribute. *)
Record StepResultsManager := mkManager {
  oid : nat;
  artifacts_dir : Path
}.

Record world (blob : Type) := mkWorld {
  session_state : gmap string value;
  fs : gmap Path (node blob);
  trace : list event;
  _manager_instance : option StepResultsManager;
  next_oid : nat
}.

Arguments mkWorld {blob}.
Arguments session_state {blob}.
Arguments fs {blob}.
Arguments trace {blob}.
Arguments _manager_instance {blob}.
Arguments next_oid {blob}.

(** One entry of the dictionary [get_step_status] returns. *)
Record step_status := mkStatus {
  in_session : bool;
  in_file : bool;
  file_path : option Path
}.

Inductive outcome (A : Type) : Type :=
  | Return (a : A)
  | Raise (e : exn).

Arguments Return {A} a.
Arguments Raise {A} e.

(** A Python computation: it returns or raises, and either way leaves a
    world behind (what was written before an exception stays written). *)
Definition M (blob A : Type) : Type := world blob → outcome A * world blob.

Section Model.
Context {blob : Type} `{Pickle blob}.

Abbreviation W := (world blob).
Abbreviation Py := (M blob).

Definition ret {A} (a : A) : Py A := λ w, (Return a, w).

Definition bind {A B} (c : Py A) (k : A → Py B) : Py B :=
  λ w, match c w with
       | (Return a, w') => k a w'
       | (Raise e, w') => (Raise e, w')
       end.

Definition raise {A} (e : exn) : Py A := λ w, (Raise e, w).

(** [try: body  except Exception as e: handler e]. *)
Definition try_except {A} (body : Py A) (handler : exn → Py A) : Py A :=
  λ w, match body w with
       | (Return a, w') => (Return a, w')
       | (Raise e, w') => handler e w'
       end.

(** [for x in xs: acc = body x acc]. *)
Fixpoint for_in {A S} (xs : list A) (body : A → S → Py S) (acc : S) : Py S :=
  match xs with
  | [] => ret acc
  | x :: xs' => bind (body x acc) (for_in xs' body)
  end.

#[global] Instance Py_ret : MRet Py := @ret.
#[global] Instance Py_bind : MBind Py := λ A B k c, bind c k.

Definition set_session (s : gmap string value) (w : W) : W :=
  mkWorld s (fs w) (trace w) (_manager_instance w) (next_oid w).

Definition set_fs (f : gmap Path (node blob)) (w : W) : W :=
  mkWorld (session_state w) f (trace w) (_manager_instance w) (next_oid w).

Definition log (ev : event) (w : W) : W :=
  mkWorld (session_state w) (fs w) (ev :: trace w) (_manager_instance w) (next_oid w).


(** *** Primitive operations *)

(** [key in st.session_state]. *)
Definition session_contains (key : string) : Py bool :=
  λ w, (Return (bool_decide (is_Some (session_state w !! key))), w).

(** [st.session_state[key]]. *)
Definition session_getitem (key : string) : Py value :=
  λ w, match session_state w !! key with
       | Some v => (Return v, w)
       | None => (Raise (KeyError key), w)
       end.

(** [st.session_state.get(key)]. *)
Definition session_get (key : string) : Py value :=
  λ w, (Return (default VNone (session_state w !! key)), w).

(** [st.session_state[key] = data]. *)
Definition session_setitem (key : string) (data : value) : Py unit :=
  λ w, (Return (), set_session (<[key := data]> (session_state w)) w).

(** [del st.session_state[key]]. *)
Definition session_delitem (key : string) : Py unit :=
  λ w, match session_state w !! key with
       | Some _ => (Return (), set_session (delete key (session_state w)) w)
       | None => (Raise (KeyError key), w)
       end.

(** [print(...)]. *)
Definition print (d : diag) : Py unit :=
  λ w, (Return (), log (EvPrint d) w).

(** [STEP_MAPPINGS[step_key]]. *)
Definition mapping_getitem (step_key : string) : Py string :=
  match dict_get STEP_MAPPINGS step_key with
  | Some filename => ret filename
  | None => raise (KeyError step_key)
  end.

Definition is_dir (f : gmap Path (node blob)) (p : Path) : bool :=
  match p with
  | [] => true
  | _ => match f !! p with Some Dir => true | _ => false end
  end.

Definition is_file (f : gmap Path (node blob)) (p : Path) : bool :=
  match f !! p with Some (File _) => true | _ => false end.

(** [p.exists()]. *)
Definition path_exists (p : Path) : Py bool :=
  λ w, (Return (bool_decide (is_Some (fs w !! p))), log (EvExists p) w).

(** [with open(p, 'wb') as f: pickle.dump(data, f)].  Opening fails on
    a directory and when the parent directory is missing; otherwise
    the file is created or truncated, and holds whatever [pickle.dump]
    managed to write. *)
Definition open_wb_pickle_dump (p : Path) (data : value) : Py unit :=
  λ w, let w := log (EvOpenWrite p) w in
       match fs w !! p with
       | Some Dir => (Raise (IsADirectoryError p), w)
       | Some (File _) =>
           match pickle_dump data with
           | Dumped b => (Return (), set_fs (<[p := File b]> (fs w)) w)
           | DumpFailed b => (Raise PicklingError, set_fs (<[p := File b]> (fs w)) w)
           end
       | None =>
           if is_dir (fs w) (path_parent p) then
             match pickle_dump data with
             | Dumped b => (Return (), set_fs (<[p := File b]> (fs w)) w)
             | DumpFailed b => (Raise PicklingError, set_fs (<[p := File b]> (fs w)) w)
             end
           else (Raise (FileNotFoundError p), w)
       end.

(** [with open(p, 'rb') as f: return pickle.load(f)]. *)
Definition open_rb_pickle_load (p : Path) : Py value :=
  λ w, let w := log (EvOpenRead p) w in
       match fs w !! p with
       | Some (File b) =>
           match pickle_load b with
           | Some v => (Return v, w)
           | None => (Raise UnpicklingError, w)
           end
       | Some Dir => (Raise (IsADirectoryError p), w)
       | None => (Raise (FileNotFoundError p), w)
       end.

(** [p.unlink()]. *)
Definition path_unlink (p : Path) : Py unit :=
  λ w, let w := log (EvUnlink p) w in
       match fs w !! p with
       | Some (File _) => (Return (), set_fs (delete p (fs w)) w)
       | Some Dir => (Raise (IsADirectoryError p), w)
       | None => (Raise (FileNotFoundError p), w)
       end.

(** [p.mkdir(parents=True, exist_ok=True)]: refuses when a regular
    file sits at the path or at one of its ancestors, otherwise makes
    every missing directory on the way. *)
Definition path_mkdir (p : Path) : Py unit :=
  λ w, let w := log (EvMkdir p) w in
       match list_find (is_file (fs w)) (path_prefixes p) with
       | Some (_, q) =>
           (Raise (if decide (q = p) then FileExistsError q else NotADirectoryError q), w)
       | None =>
           (Return (),
            set_fs (foldr (λ q f, <[q := Dir]> f) (fs w) (path_prefixes p)) w)
       end.

(** *** The manager *)

(** [StepResultsManager.__init__]. *)
Definition __init__ (artifacts_dir : Path) : Py StepResultsManager :=
  λ w, let self := mkManager (next_oid w) artifacts_dir in
       let w := mkWorld (session_state w) (fs w) (trace w)
                        (_manager_instance w) (S (next_oid w)) in
       match path_mkdir artifacts_dir w with
       | (Return _, w') => (Return self, w')
       | (Raise e, w') => (Raise e, w')
       end.

Section Methods.
Variable self : StepResultsManager.

(** [save_step_result]. *)
Definition save_step_result (step_key : string) (data : value) : Py bool :=
  if negb (dict_contains STEP_MAPPINGS step_key) then
    print (WarnUnknownStepKey step_key);;
    mret false
  else
    filename ← mapping_getitem step_key;
    let filepath := artifacts_dir self </> filename in
    try_except
      (open_wb_pickle_dump filepath data;;
       mret true)
      (λ e, print (ErrorSaving step_key e);;
            mret false).

(** [load_step_result]; the [Optional[Any]] it returns is a Python
    value, [None] included. *)
Definition load_step_result (step_key : string) : Py value :=
  if negb (dict_contains STEP_MAPPINGS step_key) then
    mret VNone
  else
    filename ← mapping_getitem step_key;
    let filepath := artifacts_dir self </> filename in
    ex ← path_exists filepath;
    if negb ex then
      mret VNone
    else
      try_except
        (open_rb_pickle_load filepath)
        (λ e, print (ErrorLoading step_key e);;
              mret VNone).

(** [save_to_session_and_file]. *)
Definition save_to_session_and_file (step_key : string) (data : value) : Py bool :=
  session_setitem step_key data;;
  save_step_result step_key data.

(** [step_key in st.session_state and
     self._is_valid_data(st.session_state[step_key])]. *)
Definition session_has_valid (step_key : string) : Py bool :=
  present ← session_contains step_key;
  if (present : bool) then
    data ← session_getitem step_key;
    mret (_is_valid_data data)
  else mret false.

(** [load_from_file_to_session]. *)
Definition load_from_file_to_session (step_key : string) (force : bool) : Py bool :=
  skip ← (if negb force then session_has_valid step_key else mret false);
  if (skip : bool) then
    mret true
  else
    data ← load_step_result step_key;
    if negb (is_None data) then
      session_setitem step_key data;;
      mret true
    else
      mret false.

(** [restore_all_steps]. *)
Definition restore_all_steps (force : bool) : Py (gmap string bool) :=
  for_in (dict_keys STEP_MAPPINGS)
    (λ step_key results,
       ok ← load_from_file_to_session step_key force;
       mret (<[step_key := ok]> results))
    ∅.

(** [step_key in st.session_state and
     self._is_valid_data(st.session_state.get(step_key))]. *)
Definition in_session_valid (step_key : string) : Py bool :=
  present ← session_contains step_key;
  if (present : bool) then
    data ← session_get step_key;
    mret (_is_valid_data data)
  else mret false.

(** [get_step_status]. *)
Definition get_step_status : Py (gmap string step_status) :=
  for_in (dict_keys STEP_MAPPINGS)
    (λ step_key status,
       filename ← mapping_getitem step_key;
       let filepath := artifacts_dir self </> filename in
       in_session ← in_session_valid step_key;
       in_file ← path_exists filepath;
       ex ← path_exists filepath;
       let file_path := if (ex : bool) then Some filepath else None in
       mret (<[step_key := mkStatus in_session in_file file_path]> status))
    ∅.

(** [clear_step]. *)
Definition clear_step (step_key : string) (clear_session clear_file : bool) : Py bool :=
  let success := true in
  present ← (if clear_session then session_contains step_key else mret false);
  success ← (if (present : bool) then
               try_except
                 (session_delitem step_key;;
                  mret success)
                 (λ _, mret false)
             else mret success);
  if clear_file && dict_contains STEP_MAPPINGS step_key then
    filename ← mapping_getitem step_key;
    let filepath := artifacts_dir self </> filename in
    ex ← path_exists filepath;
    if (ex : bool) then
      try_except
        (path_unlink filepath;;
         mret success)
        (λ e, print (ErrorDeletingFile step_key e);;
              mret false)
    else mret success
  else mret success.

(** [clear_all_steps]. *)
Definition clear_all_steps (clear_session clear_files : bool) : Py (gmap string bool) :=
  for_in (dict_keys STEP_MAPPINGS)
    (λ step_key results,
       ok ← clear_step step_key clear_session clear_files;
       mret (<[step_key := ok]> results))
    ∅.

(** [get_missing_steps]. *)
Definition get_missing_steps : Py (list string) :=
  for_in (dict_keys STEP_MAPPINGS)
    (λ step_key missing,
       filename ← mapping_getitem step_key;
       let filepath := artifacts_dir self </> filename in
       in_session ← in_session_valid step_key;
       in_file ← path_exists filepath;
       if negb in_session && negb in_file then mret (missing ++ [step_key])
       else mret missing)
    [].

(** [get_completed_steps]. *)
Definition get_completed_steps : Py (list string) :=
  for_in (dict_keys STEP_MAPPINGS)
    (λ step_key completed,
       filename ← mapping_getitem step_key;
       let filepath := artifacts_dir self </> filename in
       in_session ← in_session_valid step_key;
       in_file ← path_exists filepath;
       if in_session || in_file then mret (completed ++ [step_key])
       else mret completed)
    [].

End Methods.

(** *** The singleton accessor *)

Definition set_manager_instance (inst : option StepResultsManager) : Py unit :=
  λ w, (Return (),
        mkWorld (session_state w) (fs w) (trace w) inst (next_oid w)).

(** [get_step_results_manager]. *)
Definition get_step_results_manager (artifacts_dir : option Path) : Py StepResultsManager :=
  λ w, match _manager_instance w with
       | None =>
           match artifacts_dir with
           | None =>
               raise (ValueError "artifacts_dir must be provided for first initialization") w
           | Some dir =>
               (inst ← __init__ dir;
                set_manager_instance (Some inst);;
                mret inst) w
           end
       | Some inst => (Return inst, w)
       end.

End Model.

(** ** Pure views of the two tiers *)

(** The session entry for [step_key] is present and valid. *)
Definition session_valid (s : gmap string value) (step_key : string) : bool :=
  match s !! step_key with
  | Some data => _is_valid_data data
  | None => false
  end.

(** The file of a catalog stage, if the stage is in the catalog. *)
Definition step_path (self : StepResultsManager) (step_key : string) : option Path :=
  match dict_get STEP_MAPPINGS step_key with
  | Some filename => Some (artifacts_dir self </> filename)
  | None => None
  end.

(** Something (a file or a directory) sits at the stage's path. *)
Definition file_present {blob} (self : StepResultsManager)
    (f : gmap Path (node blob)) (step_key : string) : bool :=
  match step_path self step_key with
  | Some p => bool_decide (is_Some (f !! p))
  | None => false
  end.

(** What the durable tier yields for a stage: the unpickled content of
    its file, and [None] for an unknown stage, a missing file, a
    directory or an undecodable file. *)
Definition durable_value {blob} `{Pickle blob} (self : StepResultsManager)
    (f : gmap Path (node blob)) (step_key : string) : value :=
  match step_path self step_key with
  | Some p =>
      match f !! p with
      | Some (File b) => default VNone (pickle_load b)
      | _ => VNone
      end
  | None => VNone
  end.

(** A stage counts as done when either tier has it. *)
Definition step_done {blob} (self : StepResultsManager)
    (s : gmap string value) (f : gmap Path (node blob)) (step_key : string) : bool :=
  session_valid s step_key || file_present self f step_key.

(** The session once [load_from_file_to_session] has read [data] from
    the durable tier: a value other than [None] replaces the entry,
    [None] leaves the session as it was. *)
Definition install (step_key : string) (data : value)
    (s : gmap string value) : gmap string value :=
  if is_None data then s else <[step_key := data]> s.

(** The session after one [load_from_file_to_session], as a function
    of the session before and of the durable tier. *)
Definition restore_one {blob} `{Pickle blob} (self : StepResultsManager)
    (f : gmap Path (node blob)) (force : bool)
    (s : gmap string value) (step_key : string) : gmap string value :=
  if negb force && session_valid s step_key then s
  else install step_key (durable_value self f step_key) s.

(** What [restore_one] does to the entry it addresses. *)
Definition restore_entry (force : bool) (data : value) (o : option value) : option value :=
  if negb force && match o with Some v => _is_valid_data v | None => false end then o
  else if is_None data then o else Some data.

(** The entry [get_step_status] reports for a stage. *)
Definition status_of {blob} (self : StepResultsManager)
    (s : gmap string value) (f : gmap Path (node blob)) (step_key : string) : step_status :=
  mkStatus (session_valid s step_key) (file_present self f step_key)
           (if file_present self f step_key then step_path self step_key else None).

(** Two worlds that differ at most in their trace. *)
Definition same_stores {blob} (w w' : world blob) : Prop :=
  session_state w' = session_state w ∧ fs w' = fs w ∧
  _manager_instance w' = _manager_instance w ∧ next_oid w' = next_oid w.

(** Two worlds with the same durable tier and singleton. *)
Definition same_disk {blob} (w w' : world blob) : Prop :=
  fs w' = fs w ∧
  _manager_instance w' = _manager_instance w ∧ next_oid w' = next_oid w.

(** A directory sits at the stage's path: [open] and [unlink] refuse it. *)
Definition path_blocked {blob} (self : StepResultsManager)
    (f : gmap Path (node blob)) (step_key : string) : bool :=
  match step_path self step_key with
  | Some p => match f !! p with Some Dir => true | _ => false end
  | None => false
  end.

(** The durable tier once the regular file of a stage, if any, is gone. *)
Definition cleared_fs {blob} (self : StepResultsManager)
    (f : gmap Path (node blob)) (step_key : string) : gmap Path (node blob) :=
  match step_path self step_key with
  | Some p => match f !! p with Some (File _) => delete p f | _ => f end
  | None => f
  end.

(** [pickle.dump] completes on this payload. *)
Definition dumps {blob} `{Pickle blob} (data : value) : bool :=
  match pickle_dump data with Dumped _ => true | DumpFailed _ => false end.

(** What [pickle.dump] leaves in the file, complete or not. *)
Definition dump_bytes {blob} `{Pickle blob} (data : value) : blob :=
  match pickle_dump data with Dumped b => b | DumpFailed b => b end.

(** [open(filepath, 'wb')] goes through for the stage: it is in the
    catalog, no directory sits at its path, and a new file has a
    directory to go into. *)
Definition writable {blob} (self : StepResultsManager)
    (f : gmap Path (node blob)) (step_key : string) : bool :=
  match step_path self step_key with
  | None => false
  | Some p =>
      match f !! p with
      | Some Dir => false
      | Some (File _) => true
      | None => is_dir f (path_parent p)
      end
  end.

(** The flag [load_from_file_to_session] answers with. *)
Definition restore_flag {blob} `{Pickle blob} (self : StepResultsManager)
    (f : gmap Path (node blob)) (force : bool)
    (s : gmap string value) (step_key : string) : bool :=
  negb force && session_valid s step_key
  || negb (is_None (durable_value self f step_key)).

(** [mkdir(parents=True, exist_ok=True)] goes through when no regular
    file sits at the path or above it. *)
Definition can_mkdir {blob} (f : gmap Path (node blob)) (p : Path) : Prop :=
  list_find (is_file f) (path_prefixes p) = None.

(** ** A reference codec *)

(** A stream is either complete (it carries its value) or torn.
    Functions cannot be pickled. *)
Definition picklable (v : value) : bool :=
  match v with
  | VObject "function" _ => false
  | _ => true
  end.

#[export] Instance reference_pickle : Pickle (option value) := {|
  pickle_dump v := if picklable v then Dumped (Some v) else DumpFailed None;
  pickle_load b := b
|}.

(** ** Sample worlds *)

Definition artifacts : Path := ["artifacts"].

Definition manager0 : StepResultsManager := mkManager 0 artifacts.

(** A fresh session over an empty artifacts directory. *)
Definition fresh_world : world (option value) :=
  mkWorld ∅ {[ artifacts := Dir ]} [] (Some manager0) 1.

(** The process before any manager was built. *)
Definition boot_world : world (option value) :=
  mkWorld ∅ ∅ [] None 0.

(** A session that holds a valid timing, with nothing on disk. *)
Definition session_only_world : world (option value) :=
  mkWorld {[ "training_time" := VInt 7 ]} {[ artifacts := Dir ]} [] (Some manager0) 1.

(** A valid timing in the session, and a pickled [None] in the file of
    the same stage. *)
Definition stored_None_world : world (option value) :=
  mkWorld {[ "training_time" := VInt 7 ]}
          {[ artifacts := Dir;
             artifacts </> "training_time.pkl" := File (Some VNone) ]}
          [] (Some manager0) 1.

(** A timing held by both tiers. *)
Definition saved_world : world (option value) :=
  mkWorld {[ "training_time" := VInt 7 ]}
          {[ artifacts := Dir;
             artifacts </> "training_time.pkl" := File (Some (VInt 7)) ]}
          [] (Some manager0) 1.

(** No manager yet, and a regular file where the artifacts directory
    should go. *)
Definition blocked_world : world (option value) :=
  mkWorld ∅ {[ artifacts := File None ]} [] None 0.


(** The double 42.5. *)
Definition float_42_5 : value := VFloat 4631178160564600832.

(** ** Properties *)

Ltac py_finish :=
  eexists; split; [reflexivity | by repeat split].

Ltac py_unfold :=
  unfold mbind, mret, Py_bind, Py_ret, bind, ret, raise, try_except in *.

Section Properties.
Context {blob : Type} `{Pickle blob}.

Implicit Types (w : world blob) (self : StepResultsManager).

Lemma same_stores_refl w : same_stores w w.
Proof. by repeat split. Qed.

Lemma same_stores_log ev w w' : same_stores w w' → same_stores w (log ev w').
Proof. by intros (? & ? & ? & ?). Qed.

Lemma dict_contains_keys d key :
  dict_contains d key = true ↔ key ∈ dict_keys d.
Proof.
  unfold dict_contains, dict_keys.
  induction d as [|[k v] d IH]; simpl.
  - split; [done | by intros ?%elem_of_nil].
  - destruct (decide (k = key)) as [->|Hne].
    + split; [intros _; left | done].
    + rewrite IH. split; [by right | ].
      intros [?|?]%elem_of_cons; [congruence | done].
Qed.

Lemma mapping_getitem_known step_key w :
  dict_contains STEP_MAPPINGS step_key = true →
  ∃ filename, dict_get STEP_MAPPINGS step_key = Some filename ∧
              mapping_getitem (blob := blob) step_key w = (Return filename, w).
Proof.
  unfold dict_contains, mapping_getitem.
  destruct (dict_get STEP_MAPPINGS step_key) as [f|]; [|done].
  intros _. by exists f.
Qed.

Lemma in_session_valid_run step_key w :
  in_session_valid step_key w = (Return (session_valid (session_state w) step_key), w).
Proof.
  unfold in_session_valid, session_contains, session_get, session_valid.
  py_unfold. destruct (session_state w !! step_key) eqn:E; simpl; by rewrite ?E.
Qed.

Lemma session_has_valid_run step_key w :
  session_has_valid step_key w = (Return (session_valid (session_state w) step_key), w).
Proof.
  unfold session_has_valid, session_contains, session_getitem, session_valid.
  py_unfold. destruct (session_state w !! step_key) eqn:E; simpl; by rewrite ?E.
Qed.

(** The loop rule: an invariant over the keys already visited that
    every iteration re-establishes holds of the whole loop, which
    returns normally. *)
Lemma for_in_invariant {A S} (Inv : list A → S → world blob → Prop)
    (xs : list A) (body : A → S → M blob S) acc w :
  Inv [] acc w →
  (∀ seen x acc w, x ∈ xs → Inv seen acc w →
     ∃ acc' w', body x acc w = (Return acc', w') ∧ Inv (seen ++ [x]) acc' w') →
  ∃ acc' w', for_in xs body acc w = (Return acc', w') ∧ Inv xs acc' w'.
Proof.
  intros Hinit Hstep.
  cut (∀ seen acc w, Inv seen acc w →
         (∀ seen x acc w, x ∈ xs → Inv seen acc w →
            ∃ acc' w', body x acc w = (Return acc', w') ∧ Inv (seen ++ [x]) acc' w') →
         ∃ acc' w', for_in xs body acc w = (Return acc', w') ∧ Inv (seen ++ xs) acc' w').
  { intros Hgen. apply (Hgen [] acc w Hinit Hstep). }
  clear acc w Hinit Hstep.
  induction xs as [|x xs IH]; intros seen acc w Hinv Hstep; simpl.
  - exists acc, w. by rewrite app_nil_r.
  - destruct (Hstep seen x acc w) as (acc1 & w1 & Hrun & Hinv1); [left | done |].
    destruct (IH (seen ++ [x]) acc1 w1 Hinv1) as (acc2 & w2 & Hrun2 & Hinv2).
    { intros seen' y acc' w' Hy. apply Hstep. by right. }
    exists acc2, w2. unfold bind. rewrite Hrun, Hrun2.
    by rewrite <-app_assoc in Hinv2.
Qed.

Lemma path_exists_run (p : Path) w :
  path_exists p w = (Return (bool_decide (is_Some (fs w !! p))), log (EvExists p) w).
Proof. done. Qed.

(** One iteration of the status loops: the two flags of a catalog
    stage are the pure views of the tiers, and only the trace grows. *)
Lemma stage_flags_run {S} self step_key w (k : bool → bool → M blob S) :
  dict_contains STEP_MAPPINGS step_key = true →
  ∃ w1, same_stores w w1 ∧
    (filename ← mapping_getitem step_key;
     in_session ← in_session_valid step_key;
     in_file ← path_exists (artifacts_dir self </> filename);
     k in_session in_file) w
    = k (session_valid (session_state w) step_key)
        (file_present self (fs w) step_key) w1.
Proof.
  intros Hk. destruct (mapping_getitem_known step_key w Hk) as (f & Hf & Hrun).
  py_unfold. rewrite Hrun, in_session_valid_run, path_exists_run.
  unfold file_present, step_path. rewrite Hf.
  eexists; split; [|done]. apply same_stores_log, same_stores_refl.
Qed.

Lemma same_stores_trans w1 w2 w3 :
  same_stores w1 w2 → same_stores w2 w3 → same_stores w1 w3.
Proof. intros (?&?&?&?) (?&?&?&?). repeat split; congruence. Qed.

(** [get_missing_steps] returns the catalog keys that are in neither
    tier, in catalog order, and touches neither tier. *)
Lemma get_missing_steps_run self w :
  ∃ w', get_missing_steps self w =
          (Return (filter (λ k, step_done self (session_state w) (fs w) k = false)
                          (dict_keys STEP_MAPPINGS)), w')
        ∧ same_stores w w'.
Proof.
  unfold get_missing_steps.
  destruct (for_in_invariant
    (λ seen acc w', acc = filter (λ k, step_done self (session_state w) (fs w) k = false) seen
                    ∧ same_stores w w')
    (dict_keys STEP_MAPPINGS)
    (λ step_key missing,
       filename ← mapping_getitem step_key;
       in_session ← in_session_valid step_key;
       in_file ← path_exists (artifacts_dir self </> filename);
       if negb in_session && negb in_file then mret (missing ++ [step_key])
       else mret missing) [] w) as (acc & w' & Hrun & -> & Hst).
  - split; [done | apply same_stores_refl].
  - intros seen x acc w0 Hx [-> Hst].
    destruct (stage_flags_run self x w0
      (λ in_session in_file,
         if negb in_session && negb in_file
         then mret (filter (λ k, step_done self (session_state w) (fs w) k = false) seen ++ [x])
         else mret (filter (λ k, step_done self (session_state w) (fs w) k = false) seen)))
      as (w1 & Hst1 & ->); [by apply dict_contains_keys|].
    pose proof Hst as (Hs & Hf & _).
    rewrite Hs, Hf, filter_app, filter_cons, filter_nil. unfold step_done.
    destruct (session_valid _ _), (file_present _ _ _); simpl;
      (eexists _, _; split; [reflexivity|]);
      (split; [by rewrite ?app_nil_r | by eapply same_stores_trans]).
  - eauto.
Qed.

(** [get_completed_steps] returns the catalog keys that are in some
    tier, in catalog order, and touches neither tier. *)
Lemma get_completed_steps_run self w :
  ∃ w', get_completed_steps self w =
          (Return (filter (λ k, step_done self (session_state w) (fs w) k = true)
                          (dict_keys STEP_MAPPINGS)), w')
        ∧ same_stores w w'.
Proof.
  unfold get_completed_steps.
  destruct (for_in_invariant
    (λ seen acc w', acc = filter (λ k, step_done self (session_state w) (fs w) k = true) seen
                    ∧ same_stores w w')
    (dict_keys STEP_MAPPINGS)
    (λ step_key completed,
       filename ← mapping_getitem step_key;
       in_session ← in_session_valid step_key;
       in_file ← path_exists (artifacts_dir self </> filename);
       if in_session || in_file then mret (completed ++ [step_key])
       else mret completed) [] w) as (acc & w' & Hrun & -> & Hst).
  - split; [done | apply same_stores_refl].
  - intros seen x acc w0 Hx [-> Hst].
    destruct (stage_flags_run self x w0
      (λ in_session in_file,
         if in_session || in_file
         then mret (filter (λ k, step_done self (session_state w) (fs w) k = true) seen ++ [x])
         else mret (filter (λ k, step_done self (session_state w) (fs w) k = true) seen)))
      as (w1 & Hst1 & ->); [by apply dict_contains_keys|].
    pose proof Hst as (Hs & Hf & _).
    rewrite Hs, Hf, filter_app, filter_cons, filter_nil. unfold step_done.
    destruct (session_valid _ _), (file_present _ _ _); simpl;
      (eexists _, _; split; [reflexivity|]);
      (split; [by rewrite ?app_nil_r | by eapply same_stores_trans]).
  - eauto.
Qed.

Lemma STEP_MAPPINGS_NoDup : NoDup (dict_keys STEP_MAPPINGS).
Proof. apply (bool_decide_unpack _). by vm_compute. Qed.

(** C4: whatever the session and the artifacts directory hold,
    [get_missing_steps] and [get_completed_steps] both return, and
    their results partition the catalog: every catalog key is in
    exactly one of the two lists (and occurs there once), neither
    list has a key outside the catalog, and both lists are in catalog
    order.  Neither call changes a tier. *)
Theorem missing_completed_partition self w :
  ∃ missing completed w1 w2,
    get_missing_steps self w = (Return missing, w1) ∧
    get_completed_steps self w = (Return completed, w2) ∧
    same_stores w w1 ∧ same_stores w w2 ∧
    (∀ k, k ∈ dict_keys STEP_MAPPINGS →
          (k ∈ missing ∧ k ∉ completed) ∨ ((k ∉ missing) ∧ k ∈ completed)) ∧
    (∀ k, (k ∈ missing ∨ k ∈ completed) → k ∈ dict_keys STEP_MAPPINGS) ∧
    NoDup missing ∧ NoDup completed ∧
    sublist missing (dict_keys STEP_MAPPINGS) ∧
    sublist completed (dict_keys STEP_MAPPINGS) ∧
    missing ++ completed ≡ₚ dict_keys STEP_MAPPINGS.
Proof.
  destruct (get_missing_steps_run self w) as (w1 & Hm & Hs1).
  destruct (get_completed_steps_run self w) as (w2 & Hc & Hs2).
  set (done := step_done self (session_state w) (fs w)) in *.
  exists (filter (λ k, done k = false) (dict_keys STEP_MAPPINGS)),
         (filter (λ k, done k = true) (dict_keys STEP_MAPPINGS)), w1, w2.
  split; [exact Hm|]. split; [exact Hc|]. split; [exact Hs1|]. split; [exact Hs2|].
  repeat split.
  - intros k Hk. rewrite !list_elem_of_filter.
    destruct (done k) eqn:Hd; [right | left].
    + split; [intros [? _]; congruence | done].
    + split; [done | intros [? _]; congruence].
  - intros k [Hk|Hk]; apply list_elem_of_filter in Hk; tauto.
  - apply NoDup_filter, STEP_MAPPINGS_NoDup.
  - apply NoDup_filter, STEP_MAPPINGS_NoDup.
  - apply sublist_filter.
  - apply sublist_filter.
  - rewrite <-(filter_app_complement (λ k, done k = true) (dict_keys STEP_MAPPINGS)) at 3.
    rewrite (comm app). f_equiv.
    rewrite (list_filter_iff (λ k, done k = false) (λ k, done k ≠ true)); [done|].
    intros k. by destruct (done k).
Qed.

(** *** The durable tier *)

(** [load_step_result] never raises and changes no store; what it
    returns is the pure view of the durable tier, and whenever
    something sits at the stage's path it does open that path. *)
Lemma load_step_result_run self step_key w :
  ∃ w', load_step_result self step_key w
          = (Return (durable_value self (fs w) step_key), w')
        ∧ same_stores w w'
        ∧ (∀ p, step_path self step_key = Some p → is_Some (fs w !! p) →
                EvOpenRead p ∈ trace w').
Proof.
  unfold load_step_result, durable_value, step_path, dict_contains, mapping_getitem.
  destruct (dict_get STEP_MAPPINGS step_key) as [f|]; simpl.
  2: { exists w. split; [done|]. split; [apply same_stores_refl | done]. }
  py_unfold. rewrite path_exists_run. simpl.
  unfold open_rb_pickle_load, print. simpl.
  destruct (fs w !! (artifacts_dir self </> f)) as [[b|]|] eqn:Hp;
    simpl; rewrite ?Hp; simpl.
  - destruct (pickle_load b); simpl;
      (eexists; split; [reflexivity|]; split; [by repeat split|]);
      intros p [= <-] _; simpl; set_solver.
  - eexists; split; [reflexivity|]; split; [by repeat split|].
    intros p [= <-] _; simpl; set_solver.
  - eexists; split; [reflexivity|]; split; [by repeat split|].
    intros p [= <-] [? ?]. congruence.
Qed.

(** [save_step_result] never raises and leaves the session alone. *)
Lemma save_step_result_returns self step_key data w :
  ∃ ok w', save_step_result self step_key data w = (Return ok, w')
           ∧ session_state w' = session_state w
           ∧ _manager_instance w' = _manager_instance w.
Proof.
  unfold save_step_result, dict_contains, mapping_getitem.
  destruct (dict_get STEP_MAPPINGS step_key) as [f|]; simpl.
  2: { by eexists _, _. }
  py_unfold. unfold open_wb_pickle_dump, print. simpl.
  destruct (fs w !! (artifacts_dir self </> f)) as [[b|]|] eqn:Hp;
    simpl; rewrite ?Hp; simpl;
    try destruct (is_dir _ _); try destruct (pickle_dump data); simpl;
    by eexists _, _.
Qed.

(** For a stage outside the catalog nothing is written: the call
    prints its warning and answers [False]. *)
Lemma save_step_result_unknown self step_key data w :
  dict_contains STEP_MAPPINGS step_key = false →
  save_step_result self step_key data w
    = (Return false, log (EvPrint (WarnUnknownStepKey step_key)) w).
Proof. unfold save_step_result. by intros ->. Qed.

(** A successful write leaves a complete stream of the payload at the
    stage's path. *)
Lemma save_step_result_true self step_key data w w' :
  save_step_result self step_key data w = (Return true, w') →
  ∃ p b, step_path self step_key = Some p ∧ pickle_dump data = Dumped b ∧
         fs w' = <[p := File b]> (fs w).
Proof.
  unfold save_step_result, step_path, dict_contains, mapping_getitem.
  destruct (dict_get STEP_MAPPINGS step_key) as [f|]; simpl; [|by intros [=]].
  py_unfold. unfold open_wb_pickle_dump, print. simpl.
  destruct (fs w !! (artifacts_dir self </> f)) as [[b|]|] eqn:Hp;
    simpl; rewrite ?Hp; simpl;
    try destruct (is_dir _ _); try destruct (pickle_dump data) as [b'|b']; simpl;
    intros [= <-]; by eexists _, _.
Qed.

(** The flag and the durable tier that [save_step_result] produces do
    not depend on the session it runs in. *)
Lemma save_step_result_session_irrelevant self step_key data w s ok w' :
  save_step_result self step_key data w = (Return ok, w') →
  save_step_result self step_key data (set_session s w)
    = (Return ok, set_session s w').
Proof.
  unfold save_step_result, dict_contains, mapping_getitem.
  destruct (dict_get STEP_MAPPINGS step_key) as [f|]; simpl.
  2: { by intros [= <- <-]. }
  py_unfold. unfold open_wb_pickle_dump, print. simpl.
  destruct (fs w !! (artifacts_dir self </> f)) as [[b|]|] eqn:Hp;
    simpl; rewrite ?Hp; simpl;
    try destruct (is_dir _ _); try destruct (pickle_dump data) as [b'|b']; simpl;
    by intros [= <- <-].
Qed.

(** C5: with a codec that loads back what it dumped, a
    [save_step_result] that succeeded (hence on a catalog stage) is
    followed by a [load_step_result] of the same stage that returns
    the payload written; this holds for every payload, the valid ones
    in particular. *)
Theorem save_then_load_roundtrip `{!PickleRoundTrip blob} self step_key data w w1 :
  save_step_result self step_key data w = (Return true, w1) →
  dict_contains STEP_MAPPINGS step_key = true ∧
  ∃ w2, load_step_result self step_key w1 = (Return data, w2) ∧ same_stores w1 w2.
Proof.
  intros Hsave.
  destruct (save_step_result_true _ _ _ _ _ Hsave) as (p & b & Hp & Hdump & Hfs).
  split.
  { unfold step_path in Hp. unfold dict_contains.
    by destruct (dict_get STEP_MAPPINGS step_key). }
  destruct (load_step_result_run self step_key w1) as (w2 & Hload & Hst & _).
  exists w2. split; [|done]. rewrite Hload. f_equal. f_equal.
  unfold durable_value. rewrite Hp, Hfs, lookup_insert_eq.
  by rewrite (pickle_load_dump _ _ Hdump).
Qed.

(** [save_to_session_and_file] is the session write followed by
    [save_step_result], whose flag and files do not depend on the
    session. *)
Lemma save_to_session_and_file_run self step_key data w :
  ∃ ok w' w1,
    save_to_session_and_file self step_key data w = (Return ok, w') ∧
    session_state w' = <[step_key := data]> (session_state w) ∧
    save_step_result self step_key data w = (Return ok, w1) ∧
    fs w' = fs w1.
Proof.
  destruct (save_step_result_returns self step_key data w) as (ok & w1 & Hsave & Hs & _).
  pose proof (save_step_result_session_irrelevant _ _ _ _
                (<[step_key := data]> (session_state w)) _ _ Hsave) as Hsave'.
  exists ok, (set_session (<[step_key := data]> (session_state w)) w1), w1.
  split; [|by repeat split].
  unfold save_to_session_and_file, session_setitem. py_unfold. apply Hsave'.
Qed.

(** C7: for every key, catalog or not, [save_to_session_and_file]
    returns, has stored the payload under the key in the session, and
    answers with exactly the flag that [save_step_result] alone gives
    for that key and payload, leaving the same durable tier; for a
    key outside the catalog that flag is [False] and the durable tier
    is untouched, although the session entry was written. *)
Theorem save_to_session_and_file_spec self step_key data w :
  ∃ ok w' w1,
    save_to_session_and_file self step_key data w = (Return ok, w') ∧
    session_state w' = <[step_key := data]> (session_state w) ∧
    save_step_result self step_key data w = (Return ok, w1) ∧
    fs w' = fs w1 ∧
    (dict_contains STEP_MAPPINGS step_key = false → ok = false ∧ fs w' = fs w).
Proof.
  destruct (save_to_session_and_file_run self step_key data w)
    as (ok & w' & w1 & Hboth & Hs & Hsave & Hfs).
  exists ok, w', w1. repeat (split; [done|]).
  intros Hunk. rewrite save_step_result_unknown in Hsave by done.
  injection Hsave as <- <-. by rewrite Hfs.
Qed.

(** *** Reading through to the session *)

Lemma same_stores_disk w w' : same_stores w w' → same_disk w w'.
Proof. by intros (_ & ? & ? & ?). Qed.

(** [load_from_file_to_session] never raises.  When [force] is off
    and the session entry is valid it returns [True] at once, in an
    unchanged world; otherwise it reads the durable tier, installs
    what it found unless that is [None], and reports whether it
    installed something. *)
Lemma load_from_file_to_session_run self step_key force w :
  let skip := negb force && session_valid (session_state w) step_key in
  let data := durable_value self (fs w) step_key in
  ∃ w', load_from_file_to_session self step_key force w
          = (Return (skip || negb (is_None data)), w')
        ∧ session_state w'
          = (if skip then session_state w else install step_key data (session_state w))
        ∧ same_disk w w'
        ∧ (skip = true → w' = w)
        ∧ (skip = false → ∀ p, step_path self step_key = Some p →
                               is_Some (fs w !! p) → EvOpenRead p ∈ trace w').
Proof.
  intros skip data.
  assert (Hskip : (if negb force then session_has_valid step_key else mret false) w
                  = (Return skip, w)).
  { subst skip. destruct force; simpl; [done | apply session_has_valid_run]. }
  unfold load_from_file_to_session. py_unfold. rewrite Hskip.
  destruct skip; simpl.
  { exists w. repeat split; done. }
  destruct (load_step_result_run self step_key w) as (w1 & -> & Hst & Hread).
  fold data. unfold install, session_setitem.
  pose proof Hst as (Hs & Hf & Hi & Hn).
  destruct (is_None data); simpl.
  - exists w1. repeat split; done.
  - eexists. split; [reflexivity|]. simpl. rewrite Hs. repeat split; done.
Qed.

(** C3 (amended): for every key and every _valid_ payload,
    [save_to_session_and_file] followed at once by
    [load_from_file_to_session] without [force] returns [True] and
    leaves the session entry equal to the payload just written; the
    load changes nothing at all, not even the trace, so it opened no
    file.  This holds for keys outside the catalog and for failed
    durable writes too. *)
Theorem save_both_then_load_valid self step_key data w :
  _is_valid_data data = true →
  ∃ ok w1,
    save_to_session_and_file self step_key data w = (Return ok, w1) ∧
    load_from_file_to_session self step_key false w1 = (Return true, w1) ∧
    session_state w1 !! step_key = Some data.
Proof.
  intros Hvalid.
  destruct (save_to_session_and_file_run self step_key data w)
    as (ok & w1 & w2 & Hsave & Hs & _).
  exists ok, w1. split; [done|].
  assert (Hentry : session_state w1 !! step_key = Some data).
  { by rewrite Hs, lookup_insert_eq. }
  split; [|done].
  destruct (load_from_file_to_session_run self step_key false w1)
    as (w' & Hload & _ & _ & Hsame & _).
  revert Hload Hsame. unfold session_valid. rewrite Hentry, Hvalid. simpl.
  intros -> ->; done.
Qed.

(** C2 (amended): with [force] on, [load_from_file_to_session] never
    looks at the session entry: it returns, it opens the stage's file
    whenever something sits at its path, and its effect is decided by
    the durable tier alone.  When the durable tier yields a value
    other than [None] the call returns [True] and the session entry
    becomes that value, whatever was there before; when it yields
    nothing (unknown stage, missing or unreadable file, stored
    [None]) the call returns [False] and the session is unchanged. *)
Theorem load_force_reads_durable self step_key w :
  let data := durable_value self (fs w) step_key in
  ∃ w', load_from_file_to_session self step_key true w
          = (Return (negb (is_None data)), w') ∧
        same_disk w w' ∧
        (∀ p, step_path self step_key = Some p → is_Some (fs w !! p) →
              EvOpenRead p ∈ trace w') ∧
        (is_None data = false →
           session_state w' = <[step_key := data]> (session_state w)) ∧
        (is_None data = true → session_state w' = session_state w).
Proof.
  intros data.
  destruct (load_from_file_to_session_run self step_key true w)
    as (w' & Hload & Hs & Hd & _ & Htr).
  simpl in *. fold data in Hload, Hs.
  exists w'. split; [done|]. split; [done|]. split; [by apply Htr|].
  unfold install in Hs. split; intros Hn; by rewrite Hn in Hs.
Qed.

(** *** Restoring every stage *)

Lemma restore_one_lookup self f force s k j :
  restore_one self f force s k !! j
  = if decide (j = k) then restore_entry force (durable_value self f k) (s !! k)
    else s !! j.
Proof.
  unfold restore_one, restore_entry, install, session_valid.
  destruct (decide (j = k)) as [->|Hne].
  - destruct (negb force && _); [done|].
    destruct (is_None _); [done | by rewrite lookup_insert_eq].
  - destruct (negb force && _); [done|].
    destruct (is_None _); [done | by rewrite lookup_insert_ne].
Qed.

Lemma restore_entry_idemp force data o :
  restore_entry force data (restore_entry force data o) = restore_entry force data o.
Proof.
  unfold restore_entry.
  destruct force, o as [v|]; simpl; try destruct (_is_valid_data v) eqn:Hv; simpl;
    rewrite ?Hv; simpl; try done;
    destruct (is_None data) eqn:Hd; simpl; rewrite ?Hv, ?Hd; simpl; try done;
    by destruct (_is_valid_data data).
Qed.

(** Entry by entry, a pass over [keys] applies [restore_entry] to the
    keys it visits and leaves the others alone. *)
Lemma restore_fold_lookup self f force keys s j :
  foldl (restore_one self f force) s keys !! j
  = if decide (j ∈ keys) then restore_entry force (durable_value self f j) (s !! j)
    else s !! j.
Proof.
  revert s. induction keys as [|k keys IH]; intros s.
  - done.
  - change (foldl (restore_one self f force) s (k :: keys))
      with (foldl (restore_one self f force) (restore_one self f force s k) keys).
    rewrite IH, restore_one_lookup.
    destruct (decide (j = k)) as [->|Hne].
    + destruct (decide (k ∈ k :: keys)) as [_|Hn]; [|by destruct Hn; left].
      destruct (decide (k ∈ keys)); [apply restore_entry_idemp | done].
    + destruct (decide (j ∈ keys)) as [Hin|Hnin].
      * destruct (decide (j ∈ k :: keys)) as [_|Hn]; [done | by destruct Hn; right].
      * destruct (decide (j ∈ k :: keys)) as [[?|?]%elem_of_cons|_]; done.
Qed.

Lemma restore_fold_idemp self f force keys s :
  foldl (restore_one self f force) (foldl (restore_one self f force) s keys) keys
  = foldl (restore_one self f force) s keys.
Proof.
  apply map_eq. intros j. rewrite !restore_fold_lookup.
  destruct (decide (j ∈ keys)); [apply restore_entry_idemp | done].
Qed.

(** [restore_all_steps] never raises; it leaves the durable tier
    alone, its result has an entry for exactly the catalog keys, and
    the session it leaves is the fold of [restore_one]. *)
Lemma restore_all_steps_run self force w :
  ∃ results w',
    restore_all_steps self force w = (Return results, w') ∧
    session_state w'
      = foldl (restore_one self (fs w) force) (session_state w) (dict_keys STEP_MAPPINGS) ∧
    same_disk w w' ∧
    (∀ k, is_Some (results !! k) ↔ k ∈ dict_keys STEP_MAPPINGS).
Proof.
  unfold restore_all_steps.
  destruct (for_in_invariant
    (λ seen (acc : gmap string bool) w',
       session_state w' = foldl (restore_one self (fs w) force) (session_state w) seen
       ∧ same_disk w w'
       ∧ (∀ k, is_Some (acc !! k) ↔ k ∈ seen))
    (dict_keys STEP_MAPPINGS)
    (λ step_key results,
       ok ← load_from_file_to_session self step_key force;
       mret (<[step_key := ok]> results)) ∅ w) as (acc & w' & Hrun & Hs & Hd & Hdom).
  - split; [done|]. split; [done|]. intros k. rewrite lookup_empty.
    split; [by intros [? [=]] | by intros ?%elem_of_nil].
  - intros seen x acc w0 _ (Hs & (Hf & Hi & Hn) & Hdom).
    destruct (load_from_file_to_session_run self x force w0)
      as (w1 & Hload & Hs1 & (Hf1 & Hi1 & Hn1) & _).
    py_unfold. rewrite Hload. eexists _, w1. split; [reflexivity|].
    split; [|split].
    + rewrite foldl_app. simpl. rewrite Hs1, <-Hs, Hf. done.
    + repeat split; congruence.
    + intros k. rewrite elem_of_app, list_elem_of_singleton, <-Hdom.
      destruct (decide (k = x)) as [->|Hne].
      * rewrite lookup_insert_eq. split; [by right | by eexists].
      * rewrite lookup_insert_ne by done. split; [by left | by intros [?|?]].
  - eauto 10.
Qed.

(** C8: from any session and durable tier,
    [restore_all_steps(force=False)] returns a result dictionary with
    an entry for every catalog key (and for no other key), and a
    second call right after the first one returns too and leaves the
    session exactly as the first call left it. *)
Theorem restore_all_steps_idempotent self w :
  ∃ results1 w1 results2 w2,
    restore_all_steps self false w = (Return results1, w1) ∧
    restore_all_steps self false w1 = (Return results2, w2) ∧
    session_state w2 = session_state w1 ∧
    (∀ k, is_Some (results1 !! k) ↔ k ∈ dict_keys STEP_MAPPINGS) ∧
    (∀ k, is_Some (results2 !! k) ↔ k ∈ dict_keys STEP_MAPPINGS).
Proof.
  destruct (restore_all_steps_run self false w) as (r1 & w1 & Hrun1 & Hs1 & Hd1 & Hdom1).
  destruct (restore_all_steps_run self false w1) as (r2 & w2 & Hrun2 & Hs2 & Hd2 & Hdom2).
  exists r1, w1, r2, w2. repeat (split; [done|]). split; [|done].
  destruct Hd1 as (Hf & _). rewrite Hs2, Hs1, Hf. apply restore_fold_idemp.
Qed.

(** *** Status *)

(** [get_step_status] never raises, touches neither tier, and reports
    for every catalog stage the pure views of the two tiers. *)
Lemma get_step_status_run self w :
  ∃ status w',
    get_step_status self w = (Return status, w') ∧ same_stores w w' ∧
    (∀ k, k ∈ dict_keys STEP_MAPPINGS →
          status !! k = Some (status_of self (session_state w) (fs w) k)).
Proof.
  unfold get_step_status.
  destruct (for_in_invariant
    (λ seen (acc : gmap string step_status) w',
       same_stores w w' ∧
       (∀ k, k ∈ seen → acc !! k = Some (status_of self (session_state w) (fs w) k)))
    (dict_keys STEP_MAPPINGS)
    (λ step_key status,
       filename ← mapping_getitem step_key;
       in_session ← in_session_valid step_key;
       in_file ← path_exists (artifacts_dir self </> filename);
       ex ← path_exists (artifacts_dir self </> filename);
       mret (<[step_key := mkStatus in_session in_file
                             (if (ex : bool) then Some (artifacts_dir self </> filename)
                              else None)]> status)) ∅ w)
    as (acc & w' & Hrun & Hst & Hacc).
  - split; [apply same_stores_refl | by intros k ?%elem_of_nil].
  - intros seen x acc w0 Hx (Hst & Hacc).
    apply dict_contains_keys in Hx.
    destruct (mapping_getitem_known x w0 Hx) as (f & Hf & Hget).
    py_unfold. rewrite Hget, in_session_valid_run, !path_exists_run. simpl.
    eexists _, _. split; [reflexivity|]. split.
    { by apply same_stores_log, same_stores_log. }
    intros k [Hk| ->%list_elem_of_singleton]%elem_of_app.
    + destruct (decide (k = x)) as [->|Hne]; [|by rewrite lookup_insert_ne; auto].
      rewrite lookup_insert_eq. f_equal.
      destruct Hst as (Hs & Hfs & _).
      unfold status_of, file_present, step_path. rewrite Hf, Hs, Hfs.
      by destruct (bool_decide _).
    + rewrite lookup_insert_eq. f_equal.
      destruct Hst as (Hs & Hfs & _).
      unfold status_of, file_present, step_path. rewrite Hf, Hs, Hfs.
      by destruct (bool_decide _).
  - eauto.
Qed.

Lemma step_path_known self step_key p :
  step_path self step_key = Some p → step_key ∈ dict_keys STEP_MAPPINGS.
Proof.
  intros Hp. apply dict_contains_keys. unfold step_path in Hp. unfold dict_contains.
  by destruct (dict_get STEP_MAPPINGS step_key).
Qed.

(** C10 (amended): let the file of a catalog stage exist and unpickle
    to [None].  Then [load_step_result] returns [None], exactly as it
    does once the file is removed; whenever
    [load_from_file_to_session] gets to read the durable tier (that
    is, [force] is on or the session has no valid entry for the
    stage) it returns [False] and leaves the session as it was; and
    all the while [get_step_status] reports [in_file] with the file's
    path and [get_completed_steps] lists the stage. *)
Theorem stored_None_reads_as_absent self step_key p b force w :
  step_path self step_key = Some p →
  fs w !! p = Some (File b) →
  pickle_load b = Some VNone →
  force = true ∨ session_valid (session_state w) step_key = false →
  (∃ w1, load_step_result self step_key w = (Return VNone, w1) ∧ same_stores w w1) ∧
  (∃ w1, load_step_result self step_key (set_fs (delete p (fs w)) w) = (Return VNone, w1)) ∧
  (∃ w2, load_from_file_to_session self step_key force w = (Return false, w2) ∧
         session_state w2 = session_state w) ∧
  (∃ status w3 entry,
     get_step_status self w = (Return status, w3) ∧
     status !! step_key = Some entry ∧
     in_file entry = true ∧ file_path entry = Some p) ∧
  (∃ completed w4,
     get_completed_steps self w = (Return completed, w4) ∧ step_key ∈ completed).
Proof.
  intros Hp Hfile Hload Hread.
  assert (Hd : durable_value self (fs w) step_key = VNone).
  { unfold durable_value. by rewrite Hp, Hfile, Hload. }
  assert (Hpres : file_present self (fs w) step_key = true).
  { unfold file_present. rewrite Hp, Hfile. by apply bool_decide_eq_true_2. }
  pose proof (step_path_known _ _ _ Hp) as Hk.
  split; [|split; [|split; [|split]]].
  - destruct (load_step_result_run self step_key w) as (w1 & Hrun & Hst & _).
    exists w1. by rewrite Hrun, Hd.
  - destruct (load_step_result_run self step_key (set_fs (delete p (fs w)) w))
      as (w1 & Hrun & _).
    exists w1. rewrite Hrun. unfold durable_value. simpl.
    by rewrite Hp, lookup_delete_eq.
  - destruct (load_from_file_to_session_run self step_key force w)
      as (w2 & Hrun & Hs & _).
    exists w2. rewrite Hrun, Hs, Hd. unfold install. simpl.
    destruct Hread as [-> | ->]; simpl; [done|].
    by rewrite andb_false_r.
  - destruct (get_step_status_run self w) as (st & w3 & Hrun & _ & Hst).
    eexists st, w3, _. split; [done|]. split; [by apply Hst|].
    unfold status_of. simpl. by rewrite Hpres.
  - destruct (get_completed_steps_run self w) as (w4 & Hrun & _).
    eexists _, w4. split; [done|].
    apply list_elem_of_filter. split; [|done].
    unfold step_done. by rewrite Hpres, orb_true_r.
Qed.

(** *** Clearing *)

(** C1 (amended): a key outside the catalog never makes a method
    raise.  [save_step_result] prints its warning and returns
    [False]; [load_step_result] returns [None] without looking at the
    disk; [clear_step] with [clear_file] on skips the deletion: it
    opens, tests and prints nothing, leaves the durable tier as it
    is, drops the session entry when asked to, and returns [True]. *)
Theorem unknown_step_key_handling self step_key data clear_session w :
  dict_contains STEP_MAPPINGS step_key = false →
  save_step_result self step_key data w
    = (Return false, log (EvPrint (WarnUnknownStepKey step_key)) w) ∧
  load_step_result self step_key w = (Return VNone, w) ∧
  ∃ w', clear_step self step_key clear_session true w = (Return true, w') ∧
        fs w' = fs w ∧ trace w' = trace w ∧
        session_state w'
          = (if clear_session then delete step_key (session_state w)
             else session_state w).
Proof.
  intros Hunk. split; [by apply save_step_result_unknown|]. split.
  { unfold load_step_result. by rewrite Hunk. }
  unfold clear_step. rewrite Hunk. py_unfold.
  destruct clear_session; simpl; [|by exists w].
  unfold session_contains, session_delitem.
  destruct (session_state w !! step_key) as [v|] eqn:Hs; simpl; rewrite ?Hs; simpl.
  - by eexists.
  - exists w. by rewrite delete_id.
Qed.

(** *** The singleton *)

Lemma path_prefixes_from_last (base rest : Path) :
  rest ≠ [] → base ++ rest ∈ path_prefixes_from base rest.
Proof.
  revert base. induction rest as [|c rest IH]; intros base Hne; [done|].
  simpl. destruct rest as [|c' rest'].
  - left.
  - right. rewrite (cons_middle c base), app_assoc. by apply IH.
Qed.

Lemma mkdir_fold_lookup (f : gmap Path (node blob)) (ps : list Path) (q : Path) :
  q ∈ ps → foldr (λ q f, <[q := Dir]> f) f ps !! q = Some Dir.
Proof.
  induction ps as [|p ps IH]; [by intros ?%elem_of_nil|].
  intros Hq. simpl. destruct (decide (p = q)) as [->|Hne].
  - by rewrite lookup_insert_eq.
  - rewrite lookup_insert_ne by done. apply IH.
    apply elem_of_cons in Hq as [?|?]; [congruence | done].
Qed.

Lemma path_mkdir_ok (p : Path) w :
  can_mkdir (fs w) p →
  ∃ w', path_mkdir p w = (Return (), w') ∧ is_dir (fs w') p = true ∧
        session_state w' = session_state w ∧
        _manager_instance w' = _manager_instance w ∧ next_oid w' = next_oid w.
Proof.
  unfold can_mkdir, path_mkdir. cbn [fs log]. intros ->.
  eexists. split; [reflexivity|]. split; [|done].
  destruct p as [|c p]; [done|].
  unfold is_dir. cbn [fs set_fs log].
  rewrite mkdir_fold_lookup; [done|].
  by apply (path_prefixes_from_last [] (c :: p)).
Qed.

(** C9: while no manager exists, [get_step_results_manager] without
    an argument raises [ValueError] and creates nothing; with a
    directory it can create, it builds a manager for that directory,
    stores it as the shared instance and returns it; once a manager
    exists, every call returns that very object, whatever the
    argument, and changes nothing.  In particular the call that
    follows the first one returns the instance the first one built. *)
Theorem get_step_results_manager_singleton :
  (∀ w : world blob, _manager_instance w = None →
     get_step_results_manager None w
     = (Raise (ValueError "artifacts_dir must be provided for first initialization"), w)) ∧
  (∀ (w : world blob) dir arg, _manager_instance w = None → can_mkdir (fs w) dir →
     ∃ inst w',
       get_step_results_manager (Some dir) w = (Return inst, w') ∧
       inst = mkManager (next_oid w) dir ∧
       _manager_instance w' = Some inst ∧
       is_dir (fs w') dir = true ∧
       session_state w' = session_state w ∧
       get_step_results_manager arg w' = (Return inst, w')) ∧
  (∀ (w : world blob) inst arg, _manager_instance w = Some inst →
     get_step_results_manager arg w = (Return inst, w)).
Proof.
  split; [|split].
  - intros w Hnone. unfold get_step_results_manager. by rewrite Hnone.
  - intros w dir arg Hnone Hok.
    unfold get_step_results_manager at 1. rewrite Hnone.
    py_unfold. unfold __init__, set_manager_instance.
    destruct (path_mkdir_ok dir
                (mkWorld (session_state w) (fs w) (trace w) (_manager_instance w)
                         (S (next_oid w)))) as (w1 & Hmk & Hdir & Hs & Hi & Hn);
      [done|].
    rewrite Hmk. eexists _, _. split; [reflexivity|]. simpl.
    repeat split; try done.
  - intros w inst arg Hsome. unfold get_step_results_manager. by rewrite Hsome.
Qed.

(** When a regular file is in the way, the constructor's [mkdir]
    raises; the exception reaches the caller and no instance is
    stored, so a later call starts over. *)
Lemma get_step_results_manager_mkdir_refused (w : world blob) dir i q :
  _manager_instance w = None →
  list_find (is_file (fs w)) (path_prefixes dir) = Some (i, q) →
  ∃ e w', get_step_results_manager (Some dir) w = (Raise e, w') ∧
          _manager_instance w' = None ∧ fs w' = fs w.
Proof.
  intros Hnone Hfind. unfold get_step_results_manager. rewrite Hnone.
  py_unfold. unfold __init__, path_mkdir. cbn [fs log]. rewrite Hfind.
  by eexists _, _.
Qed.

(** *** Validity *)

(** C6: [_is_valid_data] rejects [None], the empty dict, the empty
    list, the empty tuple and every DataFrame with an empty axis; it
    accepts [0], the empty string, every other scalar or object, and
    every non-empty dict, list, tuple or DataFrame. *)
Theorem is_valid_data_cases :
  _is_valid_data VNone = false ∧
  _is_valid_data (VDict []) = false ∧
  _is_valid_data (VList []) = false ∧
  _is_valid_data (VTuple []) = false ∧
  (∀ columns values, _is_valid_data (VDataFrame (mkDataFrame [] columns values)) = false) ∧
  (∀ index values, _is_valid_data (VDataFrame (mkDataFrame index [] values)) = false) ∧
  _is_valid_data (VInt 0) = true ∧
  _is_valid_data (VStr "") = true ∧
  (∀ b, _is_valid_data (VBool b) = true) ∧
  (∀ n, _is_valid_data (VInt n) = true) ∧
  (∀ bits, _is_valid_data (VFloat bits) = true) ∧
  (∀ s, _is_valid_data (VStr s) = true) ∧
  (∀ cls attrs, _is_valid_data (VObject cls attrs) = true) ∧
  (∀ item items, _is_valid_data (VDict (item :: items)) = true) ∧
  (∀ item items, _is_valid_data (VList (item :: items)) = true) ∧
  (∀ item items, _is_valid_data (VTuple (item :: items)) = true) ∧
  (∀ i index c columns values,
     _is_valid_data (VDataFrame (mkDataFrame (i :: index) (c :: columns) values)) = true).
Proof.
  repeat split; try done.
  intros index values. unfold _is_valid_data, df_empty. simpl.
  by rewrite orb_true_r.
Qed.

End Properties.

(** ** Further properties of the manager *)

Section Coverage.
Context {blob : Type} `{Pickle blob}.

Implicit Types (w : world blob) (self : StepResultsManager).

(** *** Clearing one stage *)

(** What [clear_step] does, in full. *)
Lemma clear_step_run self step_key clear_session clear_file w :
  ∃ w', clear_step self step_key clear_session clear_file w
          = (Return (negb (clear_file && path_blocked self (fs w) step_key)), w') ∧
        session_state w'
          = (if clear_session then delete step_key (session_state w)
             else session_state w) ∧
        fs w' = (if clear_file then cleared_fs self (fs w) step_key else fs w) ∧
        _manager_instance w' = _manager_instance w ∧ next_oid w' = next_oid w.
Proof.
  unfold clear_step, path_blocked, cleared_fs, step_path, dict_contains, mapping_getitem.
  unfold session_contains, session_delitem, path_exists, path_unlink, print.
  py_unfold.
  destruct (dict_get STEP_MAPPINGS step_key) as [f|];
    destruct clear_session, clear_file;
    destruct (session_state w !! step_key) as [v|] eqn:Hs;
    cbn -[dict_get]; rewrite ?Hs; cbn -[dict_get];
    rewrite ?(delete_id _ _ Hs); try py_finish;
    destruct (fs w !! (artifacts_dir self </> f)) as [[b|]|] eqn:Hp;
    cbn -[dict_get]; rewrite ?Hp; cbn -[dict_get]; py_finish.
Qed.

Lemma cleared_fs_lookup self (f : gmap Path (node blob)) step_key q :
  cleared_fs self f step_key !! q
  = match f !! q with
    | Some (File b) =>
        if decide (step_path self step_key = Some q) then None else Some (File b)
    | o => o
    end.
Proof.
  unfold cleared_fs. destruct (step_path self step_key) as [p|].
  2: { destruct (f !! q) as [[?|]|]; [by rewrite decide_False | done..]. }
  destruct (decide (p = q)) as [->|Hne].
  - destruct (f !! q) as [[b|]|] eqn:Hq; rewrite ?lookup_delete_eq, ?Hq;
      [by rewrite decide_True | done..].
  - destruct (f !! p) as [[b|]|] eqn:Hp; rewrite ?lookup_delete_ne by done;
      (destruct (f !! q) as [[?|]|]; [rewrite decide_False by congruence|..]; done).
Qed.

Lemma path_blocked_cleared self (f : gmap Path (node blob)) k k' :
  path_blocked self (cleared_fs self f k') k = path_blocked self f k.
Proof.
  unfold path_blocked. destruct (step_path self k) as [p|]; [|done].
  rewrite cleared_fs_lookup. destruct (f !! p) as [[b|]|]; [|done..].
  by destruct (decide _).
Qed.

Lemma file_present_cleared self (f : gmap Path (node blob)) k :
  file_present self (cleared_fs self f k) k = path_blocked self f k.
Proof.
  unfold file_present, path_blocked. destruct (step_path self k) as [p|] eqn:Hp; [|done].
  rewrite cleared_fs_lookup, Hp. destruct (f !! p) as [[b|]|]; [|done..].
  by rewrite decide_True.
Qed.

(** X1: [clear_step] never raises.  It answers [False] in one case
    only: it was asked to clear the file and a directory sits at the
    path of the (catalog) stage, which then stays.  The session entry of
    the key is gone exactly when [clear_session] is set; with
    [clear_file] a regular file at the stage's path is removed; no
    other session entry and no other path is touched. *)
Theorem clear_step_outcome self step_key clear_session clear_file w :
  ∃ ok w',
    clear_step self step_key clear_session clear_file w = (Return ok, w') ∧
    (ok = false ↔ clear_file = true ∧ path_blocked self (fs w) step_key = true) ∧
    session_state w' !! step_key
      = (if clear_session then None else session_state w !! step_key) ∧
    (∀ j, j ≠ step_key → session_state w' !! j = session_state w !! j) ∧
    (clear_file = false → fs w' = fs w) ∧
    (∀ p, clear_file = true → step_path self step_key = Some p →
          fs w' !! p = match fs w !! p with Some Dir => Some Dir | _ => None end) ∧
    (∀ q, step_path self step_key ≠ Some q → fs w' !! q = fs w !! q).
Proof.
  destruct (clear_step_run self step_key clear_session clear_file w)
    as (w' & Hrun & Hs & Hf & _).
  eexists _, w'. split; [exact Hrun|]. rewrite Hs, Hf.
  split; [|split; [|split; [|split; [|split]]]].
  - destruct clear_file, (path_blocked self (fs w) step_key); simpl;
      split; (try done); by intros [? ?].
  - destruct clear_session; [apply lookup_delete_eq | done].
  - intros j Hj. destruct clear_session; [by rewrite lookup_delete_ne | done].
  - by intros ->.
  - intros p -> Hp. rewrite cleared_fs_lookup, Hp.
    destruct (fs w !! p) as [[b|]|]; [by rewrite decide_True | done..].
  - intros q Hq. destruct clear_file; [|done].
    rewrite cleared_fs_lookup. destruct (fs w !! q) as [[b|]|]; [|done..].
    by rewrite decide_False.
Qed.

(** X2: once [clear_step(step_key, clear_session=True,
    clear_file=True)] has run on a catalog stage whose path holds no
    directory, it has answered [True], [get_step_status] reports the
    stage with [in_session = False], [in_file = False] and no path, and
    [get_missing_steps] lists it. *)
Theorem clear_step_then_status self step_key w :
  step_key ∈ dict_keys STEP_MAPPINGS →
  path_blocked self (fs w) step_key = false →
  ∃ w1 status w2 missing w3,
    clear_step self step_key true true w = (Return true, w1) ∧
    get_step_status self w1 = (Return status, w2) ∧
    status !! step_key = Some (mkStatus false false None) ∧
    get_missing_steps self w1 = (Return missing, w3) ∧
    step_key ∈ missing.
Proof.
  intros Hk Hfree.
  destruct (clear_step_run self step_key true true w) as (w1 & Hrun & Hs & Hf & _).
  rewrite Hfree in Hrun. simpl in Hrun.
  assert (Hsv : session_valid (session_state w1) step_key = false).
  { unfold session_valid. by rewrite Hs, lookup_delete_eq. }
  assert (Hfp : file_present self (fs w1) step_key = false).
  { by rewrite Hf, file_present_cleared. }
  destruct (get_step_status_run self w1) as (status & w2 & Hst & _ & Hentry).
  destruct (get_missing_steps_run self w1) as (w3 & Hmiss & _).
  eexists w1, status, w2, _, w3. split; [exact Hrun|]. split; [exact Hst|].
  split; [|split; [exact Hmiss|]].
  - rewrite (Hentry _ Hk). unfold status_of. by rewrite Hsv, Hfp.
  - apply list_elem_of_filter. split; [|done].
    unfold step_done. by rewrite Hsv, Hfp.
Qed.

(** *** Clearing every stage *)

Lemma delete_fold_lookup (keys : list string) (s : gmap string value) j :
  foldl (λ s k, delete k s) s keys !! j = if decide (j ∈ keys) then None else s !! j.
Proof.
  revert s. induction keys as [|k keys IH]; intros s; [done|].
  change (foldl (λ s k, delete k s) s (k :: keys))
    with (foldl (λ s k, delete k s) (delete k s) keys).
  rewrite IH. destruct (decide (j ∈ keys)) as [Hin|Hnin].
  - destruct (decide (j ∈ k :: keys)) as [_|Hn]; [done | by destruct Hn; right].
  - destruct (decide (j = k)) as [->|Hne].
    + rewrite lookup_delete_eq.
      destruct (decide (k ∈ k :: keys)) as [_|Hn]; [done | by destruct Hn; left].
    + rewrite lookup_delete_ne by done.
      destruct (decide (j ∈ k :: keys)) as [[?|?]%elem_of_cons|_]; done.
Qed.

Lemma cleared_fold_blocked self (keys : list string) (f : gmap Path (node blob)) k :
  path_blocked self (foldl (cleared_fs self) f keys) k = path_blocked self f k.
Proof.
  revert f. induction keys as [|k' keys IH]; intros f; [done|].
  change (foldl (cleared_fs self) f (k' :: keys))
    with (foldl (cleared_fs self) (cleared_fs self f k') keys).
  by rewrite IH, path_blocked_cleared.
Qed.

(** A pass of [cleared_fs] removes the regular files of the stages it
    visits and nothing else. *)
Lemma cleared_fold_lookup self (keys : list string) (f : gmap Path (node blob)) q :
  foldl (cleared_fs self) f keys !! q
  = match f !! q with
    | Some (File b) =>
        if decide (Some q ∈ step_path self <$> keys) then None else Some (File b)
    | o => o
    end.
Proof.
  revert f. induction keys as [|k keys IH]; intros f.
  { simpl. by destruct (f !! q) as [[?|]|]. }
  change (foldl (cleared_fs self) f (k :: keys))
    with (foldl (cleared_fs self) (cleared_fs self f k) keys).
  rewrite IH, cleared_fs_lookup, fmap_cons.
  destruct (f !! q) as [[b|]|]; [|done..].
  destruct (decide (step_path self k = Some q)) as [Hk|Hk].
  - destruct (decide (Some q ∈ step_path self k :: (step_path self <$> keys)))
      as [_|Hn]; [done | destruct Hn; rewrite Hk; left].
  - destruct (decide (Some q ∈ step_path self <$> keys)) as [Hin|Hnin].
    + destruct (decide (Some q ∈ step_path self k :: (step_path self <$> keys)))
        as [_|Hn]; [done | by destruct Hn; right].
    + destruct (decide (Some q ∈ step_path self k :: (step_path self <$> keys)))
        as [[?|?]%elem_of_cons|_]; [congruence | done..].
Qed.

(** [clear_all_steps] never raises; its result has the flag of
    [clear_step] for every catalog key and nothing else, and its
    effect on the two tiers is that of the single calls in a row. *)
Lemma clear_all_steps_run self clear_session clear_files w :
  ∃ results w',
    clear_all_steps self clear_session clear_files w = (Return results, w') ∧
    session_state w'
      = (if clear_session
         then foldl (λ s k, delete k s) (session_state w) (dict_keys STEP_MAPPINGS)
         else session_state w) ∧
    fs w'
      = (if clear_files
         then foldl (cleared_fs self) (fs w) (dict_keys STEP_MAPPINGS)
         else fs w) ∧
    (∀ k, results !! k
          = if decide (k ∈ dict_keys STEP_MAPPINGS)
            then Some (negb (clear_files && path_blocked self (fs w) k))
            else None).
Proof.
  unfold clear_all_steps.
  destruct (for_in_invariant
    (λ seen (acc : gmap string bool) w',
       session_state w'
         = (if clear_session then foldl (λ s k, delete k s) (session_state w) seen
            else session_state w) ∧
       fs w' = (if clear_files then foldl (cleared_fs self) (fs w) seen else fs w) ∧
       (∀ k, acc !! k
             = if decide (k ∈ seen)
               then Some (negb (clear_files && path_blocked self (fs w) k))
               else None))
    (dict_keys STEP_MAPPINGS)
    (λ step_key results,
       ok ← clear_step self step_key clear_session clear_files;
       mret (<[step_key := ok]> results)) ∅ w) as (acc & w' & Hrun & Hs & Hf & Hacc).
  - split; [by destruct clear_session|]. split; [by destruct clear_files|].
    intros k. rewrite lookup_empty.
    destruct (decide (k ∈ [])) as [Hin|_]; [by apply elem_of_nil in Hin | done].
  - intros seen x acc w0 _ (Hs & Hf & Hacc).
    destruct (clear_step_run self x clear_session clear_files w0)
      as (w1 & Hstep & Hs1 & Hf1 & _).
    py_unfold. rewrite Hstep. eexists _, w1. split; [reflexivity|].
    split; [|split].
    + rewrite Hs1, Hs, foldl_app. by destruct clear_session.
    + rewrite Hf1, Hf, foldl_app. by destruct clear_files.
    + assert (Hb : clear_files && path_blocked self (fs w0) x
                   = clear_files && path_blocked self (fs w) x).
      { rewrite Hf. destruct clear_files; [|done]. simpl.
        apply cleared_fold_blocked. }
      intros k. rewrite Hb. destruct (decide (k = x)) as [->|Hne].
      * rewrite lookup_insert_eq.
        destruct (decide (x ∈ seen ++ [x])) as [_|Hn]; [done|].
        destruct Hn. apply elem_of_app. right. left.
      * rewrite lookup_insert_ne, Hacc by done.
        destruct (decide (k ∈ seen)) as [Hin|Hnin].
        -- destruct (decide (k ∈ seen ++ [x])) as [_|Hn]; [done|].
           destruct Hn. apply elem_of_app. by left.
        -- destruct (decide (k ∈ seen ++ [x]))
             as [[?|?%list_elem_of_singleton]%elem_of_app|_]; done.
  - eauto 10.
Qed.

(** X3: [clear_all_steps] never raises and reports on exactly the
    catalog stages; the flag of a stage is [False] only when files were
    to be cleared and a directory sits at the stage's path.  With
    [clear_session] every catalog key leaves the session while keys
    outside the catalog stay; with [clear_files] the regular files at
    the catalog's paths are removed while directories and every other
    path stay as they were. *)
Theorem clear_all_steps_outcome self clear_session clear_files w :
  ∃ results w',
    clear_all_steps self clear_session clear_files w = (Return results, w') ∧
    (∀ k, is_Some (results !! k) ↔ k ∈ dict_keys STEP_MAPPINGS) ∧
    (∀ k, results !! k = Some false ↔
          k ∈ dict_keys STEP_MAPPINGS ∧ clear_files = true ∧
          path_blocked self (fs w) k = true) ∧
    (∀ j, session_state w' !! j
          = if clear_session && bool_decide (j ∈ dict_keys STEP_MAPPINGS)
            then None else session_state w !! j) ∧
    (∀ q, fs w' !! q
          = match fs w !! q with
            | Some (File b) =>
                if clear_files
                   && bool_decide (Some q ∈ step_path self <$> dict_keys STEP_MAPPINGS)
                then None else Some (File b)
            | o => o
            end).
Proof.
  destruct (clear_all_steps_run self clear_session clear_files w)
    as (results & w' & Hrun & Hs & Hf & Hres).
  exists results, w'. split; [exact Hrun|]. split; [|split; [|split]].
  - intros k. rewrite Hres. destruct (decide (k ∈ dict_keys STEP_MAPPINGS)).
    + split; [done | by eexists].
    + split; [by intros [? [=]] | done].
  - intros k. rewrite Hres. destruct (decide (k ∈ dict_keys STEP_MAPPINGS)).
    + destruct clear_files, (path_blocked self (fs w) k); simpl;
        split; (try done); by intros (? & ? & ?).
    + split; [done | by intros (? & _)].
  - intros j. rewrite Hs. destruct clear_session; [|done]. cbn [andb].
    rewrite delete_fold_lookup.
    destruct (decide (j ∈ dict_keys STEP_MAPPINGS));
      [by rewrite bool_decide_eq_true_2 | by rewrite bool_decide_eq_false_2].
  - intros q. rewrite Hf. destruct clear_files.
    + rewrite cleared_fold_lookup. destruct (fs w !! q) as [[b|]|]; [|done..].
      cbn [andb].
      destruct (decide (Some q ∈ step_path self <$> dict_keys STEP_MAPPINGS));
        [by rewrite bool_decide_eq_true_2 | by rewrite bool_decide_eq_false_2].
    + by destruct (fs w !! q) as [[?|]|].
Qed.

Lemma filter_keeps_all {A} (P : A → Prop) `{∀ x, Decision (P x)} (l : list A) :
  (∀ x, x ∈ l → P x) → filter P l = l.
Proof.
  induction l as [|x l IH]; intros Hall; [done|].
  rewrite filter_cons, decide_True by (apply Hall; left).
  f_equal. apply IH. intros y Hy. apply Hall. by right.
Qed.

Lemma filter_keeps_none {A} (P : A → Prop) `{∀ x, Decision (P x)} (l : list A) :
  (∀ x, x ∈ l → ¬ P x) → filter P l = [].
Proof.
  induction l as [|x l IH]; intros Hnone; [done|].
  rewrite filter_cons, decide_False by (apply Hnone; left).
  apply IH. intros y Hy. apply Hnone. by right.
Qed.

(** X4: when no directory sits at the path of a catalog stage,
    [clear_all_steps(clear_session=True, clear_files=True)] reports
    [True] for every stage and leaves nothing behind:
    [get_missing_steps] then returns the whole catalog, in order, and
    [get_completed_steps] returns the empty list. *)
Theorem clear_all_steps_then_all_missing self w :
  (∀ k, k ∈ dict_keys STEP_MAPPINGS → path_blocked self (fs w) k = false) →
  ∃ results w1 w2 w3,
    clear_all_steps self true true w = (Return results, w1) ∧
    (∀ k, k ∈ dict_keys STEP_MAPPINGS → results !! k = Some true) ∧
    get_missing_steps self w1 = (Return (dict_keys STEP_MAPPINGS), w2) ∧
    get_completed_steps self w1 = (Return [], w3).
Proof.
  intros Hfree.
  destruct (clear_all_steps_run self true true w) as (results & w1 & Hrun & Hs & Hf & Hres).
  destruct (get_missing_steps_run self w1) as (w2 & Hmiss & _).
  destruct (get_completed_steps_run self w1) as (w3 & Hcomp & _).
  assert (Hdone : ∀ k, k ∈ dict_keys STEP_MAPPINGS →
                       step_done self (session_state w1) (fs w1) k = false).
  { intros k Hk. unfold step_done, session_valid, file_present.
    rewrite Hs, delete_fold_lookup, decide_True by done. cbn [orb].
    destruct (step_path self k) as [p|] eqn:Hp; [|done].
    rewrite Hf, cleared_fold_lookup.
    specialize (Hfree k Hk). unfold path_blocked in Hfree. rewrite Hp in Hfree.
    destruct (fs w !! p) as [[b|]|]; [|done..].
    rewrite decide_True; [done|].
    apply list_elem_of_fmap. by exists k. }
  exists results, w1, w2, w3. split; [exact Hrun|]. split; [|split].
  - intros k Hk. rewrite Hres, decide_True by done. by rewrite (Hfree k Hk).
  - rewrite Hmiss. f_equal. f_equal.
    apply filter_keeps_all. intros k Hk. by apply Hdone.
  - rewrite Hcomp. f_equal. f_equal.
    apply filter_keeps_none. intros k Hk. by rewrite (Hdone k Hk).
Qed.

(** *** Status and the two lists *)

(** The dictionary of [get_step_status], key by key. *)
Lemma get_step_status_lookup self w :
  ∃ status w',
    get_step_status self w = (Return status, w') ∧ same_stores w w' ∧
    (∀ k, status !! k
          = if decide (k ∈ dict_keys STEP_MAPPINGS)
            then Some (status_of self (session_state w) (fs w) k) else None).
Proof.
  unfold get_step_status.
  destruct (for_in_invariant
    (λ seen (acc : gmap string step_status) w',
       same_stores w w' ∧
       (∀ k, acc !! k
             = if decide (k ∈ seen)
               then Some (status_of self (session_state w) (fs w) k) else None))
    (dict_keys STEP_MAPPINGS)
    (λ step_key status,
       filename ← mapping_getitem step_key;
       in_session ← in_session_valid step_key;
       in_file ← path_exists (artifacts_dir self </> filename);
       ex ← path_exists (artifacts_dir self </> filename);
       mret (<[step_key := mkStatus in_session in_file
                             (if (ex : bool) then Some (artifacts_dir self </> filename)
                              else None)]> status)) ∅ w)
    as (acc & w' & Hrun & Hst & Hacc).
  - split; [apply same_stores_refl|]. intros k. rewrite lookup_empty.
    destruct (decide (k ∈ [])) as [Hin|_]; [by apply elem_of_nil in Hin | done].
  - intros seen x acc w0 Hx (Hst & Hacc).
    apply dict_contains_keys in Hx.
    destruct (mapping_getitem_known x w0 Hx) as (f & Hf & Hget).
    py_unfold. rewrite Hget, in_session_valid_run, !path_exists_run. cbn [fs log].
    eexists _, _. split; [reflexivity|]. split.
    { by apply same_stores_log, same_stores_log. }
    destruct Hst as (Hs & Hfs & _).
    intros k. destruct (decide (k = x)) as [->|Hne].
    + rewrite lookup_insert_eq.
      destruct (decide (x ∈ seen ++ [x])) as [_|Hn].
      2: { destruct Hn. apply elem_of_app. right. left. }
      f_equal. unfold status_of, file_present, step_path. rewrite Hf, Hs, Hfs.
      by destruct (bool_decide _).
    + rewrite lookup_insert_ne, Hacc by done.
      destruct (decide (k ∈ seen)) as [Hin|Hnin].
      * destruct (decide (k ∈ seen ++ [x])) as [_|Hn]; [done|].
        destruct Hn. apply elem_of_app. by left.
      * destruct (decide (k ∈ seen ++ [x]))
          as [[?|?%list_elem_of_singleton]%elem_of_app|_]; done.
  - eauto.
Qed.

(** X5: the three observers agree and only observe.  On any world,
    none of them changes the session, the durable tier or the
    singleton; [get_step_status] has an entry for exactly the catalog stages; an entry carries a
    path exactly when [in_file] is set, and that path is the stage's
    file; [get_missing_steps] lists exactly the stages whose entry has
    both flags off, and [get_completed_steps] exactly those with a
    flag on. *)
Theorem status_agrees_with_lists self w :
  ∃ status w1 missing w2 completed w3,
    get_step_status self w = (Return status, w1) ∧
    get_missing_steps self w = (Return missing, w2) ∧
    get_completed_steps self w = (Return completed, w3) ∧
    same_stores w w1 ∧ same_stores w w2 ∧ same_stores w w3 ∧
    (∀ k, is_Some (status !! k) ↔ k ∈ dict_keys STEP_MAPPINGS) ∧
    (∀ k entry, status !! k = Some entry →
       (file_path entry = (if in_file entry then step_path self k else None)) ∧
       (in_file entry = true → is_Some (step_path self k)) ∧
       (k ∈ missing ↔ in_session entry = false ∧ in_file entry = false) ∧
       (k ∈ completed ↔ in_session entry = true ∨ in_file entry = true)).
Proof.
  destruct (get_step_status_lookup self w) as (status & w1 & Hst & Hsame1 & Hlook).
  destruct (get_missing_steps_run self w) as (w2 & Hmiss & Hsame2).
  destruct (get_completed_steps_run self w) as (w3 & Hcomp & Hsame3).
  eexists status, w1, _, w2, _, w3.
  split; [exact Hst|]. split; [exact Hmiss|]. split; [exact Hcomp|].
  split; [exact Hsame1|]. split; [exact Hsame2|]. split; [exact Hsame3|]. split.
  - intros k. rewrite Hlook. destruct (decide (k ∈ dict_keys STEP_MAPPINGS)).
    + split; [done | by eexists].
    + split; [by intros [? [=]] | done].
  - intros k entry. rewrite Hlook.
    destruct (decide (k ∈ dict_keys STEP_MAPPINGS)) as [Hk|Hk]; [|done].
    intros [= <-]. unfold status_of. cbn [in_session in_file file_path].
    rewrite !list_elem_of_filter. unfold step_done.
    split; [done|]. split.
    { unfold file_present. by destruct (step_path self k). }
    destruct (session_valid _ _), (file_present _ _ _); cbn [orb];
      split; split; try done; try tauto; try (by intros [? ?]);
      try (by intros [?|?]); try (by left); by right.
Qed.

(** *** Reading one stage into the session *)

(** X15: [load_from_file_to_session] never raises and never writes to
    the durable tier; it touches no session entry but the one of its
    key.  If it answers [True] the key is in the session afterwards; if
    it answers [False] the session is exactly as before, the durable
    tier had nothing for the stage, and the session entry was not
    consulted or not valid.  Without [force], a valid session entry is
    served without any file-system call. *)
Theorem load_from_file_to_session_outcome self step_key force w :
  ∃ ok w',
    load_from_file_to_session self step_key force w = (Return ok, w') ∧
    fs w' = fs w ∧
    (∀ j, j ≠ step_key → session_state w' !! j = session_state w !! j) ∧
    (ok = true → is_Some (session_state w' !! step_key)) ∧
    (ok = false →
       session_state w' = session_state w ∧
       durable_value self (fs w) step_key = VNone ∧
       (force = true ∨ session_valid (session_state w) step_key = false)) ∧
    (force = false → session_valid (session_state w) step_key = true →
       ok = true ∧ w' = w).
Proof.
  destruct (load_from_file_to_session_run self step_key force w)
    as (w' & Hrun & Hs & (Hf & _) & Hsame & _).
  cbv zeta in *.
  set (skip := negb force && session_valid (session_state w) step_key) in *.
  set (data := durable_value self (fs w) step_key) in *.
  exists (skip || negb (is_None data)), w'.
  split; [exact Hrun|]. split; [exact Hf|]. rewrite Hs. unfold install.
  split; [|split; [|split]].
  - intros j Hj. destruct skip; [done|].
    destruct (is_None data); [done | by rewrite lookup_insert_ne].
  - intros Hok. destruct skip eqn:Hskip.
    + apply andb_true_iff in Hskip as [_ Hvalid]. unfold session_valid in Hvalid.
      by destruct (session_state w !! step_key).
    + cbn [orb] in Hok. destruct (is_None data); [done|].
      rewrite lookup_insert_eq. by eexists.
  - intros Hok. apply orb_false_iff in Hok as [Hskip Hnone].
    apply negb_false_iff in Hnone. rewrite Hskip, Hnone.
    split; [done|]. split; [by destruct data|].
    apply andb_false_iff in Hskip as [Hforce|Hvalid]; [left | by right].
    by destruct force.
  - intros -> Hvalid. subst skip. rewrite Hvalid in *. cbn [negb andb orb] in *.
    split; [done | by apply Hsame].
Qed.

(** *** Restoring every stage: the report and the winner *)

(** Visiting a stage again does not change the flag it gets. *)
Lemma restore_flag_stable self (f : gmap Path (node blob)) force seen s k :
  restore_flag self f force (foldl (restore_one self f force) s seen) k
  = restore_flag self f force s k.
Proof.
  unfold restore_flag, session_valid. rewrite restore_fold_lookup.
  destruct (decide (k ∈ seen)); [|done].
  unfold restore_entry.
  destruct (is_None (durable_value self f k)) eqn:Hd; cbn [negb].
  - destruct force, (s !! k) as [v|]; cbn [negb andb]; try done.
    by destruct (_is_valid_data v) eqn:Hv; rewrite ?Hv.
  - by rewrite !orb_true_r.
Qed.

(** The dictionary of [restore_all_steps], key by key. *)
Lemma restore_all_steps_lookup self force w :
  ∃ results w',
    restore_all_steps self force w = (Return results, w') ∧
    session_state w'
      = foldl (restore_one self (fs w) force) (session_state w) (dict_keys STEP_MAPPINGS) ∧
    fs w' = fs w ∧
    (∀ k, results !! k
          = if decide (k ∈ dict_keys STEP_MAPPINGS)
            then Some (restore_flag self (fs w) force (session_state w) k) else None).
Proof.
  unfold restore_all_steps.
  destruct (for_in_invariant
    (λ seen (acc : gmap string bool) w',
       session_state w' = foldl (restore_one self (fs w) force) (session_state w) seen
       ∧ fs w' = fs w
       ∧ (∀ k, acc !! k
               = if decide (k ∈ seen)
                 then Some (restore_flag self (fs w) force (session_state w) k) else None))
    (dict_keys STEP_MAPPINGS)
    (λ step_key results,
       ok ← load_from_file_to_session self step_key force;
       mret (<[step_key := ok]> results)) ∅ w) as (acc & w' & Hrun & Hs & Hf & Hacc).
  - split; [done|]. split; [done|]. intros k. rewrite lookup_empty.
    destruct (decide (k ∈ [])) as [Hin|_]; [by apply elem_of_nil in Hin | done].
  - intros seen x acc w0 _ (Hs & Hf & Hacc).
    destruct (load_from_file_to_session_run self x force w0)
      as (w1 & Hload & Hs1 & (Hf1 & _) & _).
    py_unfold. rewrite Hload. eexists _, w1. split; [reflexivity|].
    split; [|split].
    + rewrite foldl_app. cbn [foldl]. by rewrite Hs1, <-Hs, Hf.
    + congruence.
    + assert (Hflag : negb force && session_valid (session_state w0) x
                      || negb (is_None (durable_value self (fs w0) x))
                      = restore_flag self (fs w) force (session_state w) x).
      { rewrite Hs, Hf. apply restore_flag_stable. }
      intros k. rewrite Hflag. destruct (decide (k = x)) as [->|Hne].
      * rewrite lookup_insert_eq.
        destruct (decide (x ∈ seen ++ [x])) as [_|Hn]; [done|].
        destruct Hn. apply elem_of_app. right. left.
      * rewrite lookup_insert_ne, Hacc by done.
        destruct (decide (k ∈ seen)) as [Hin|Hnin].
        -- destruct (decide (k ∈ seen ++ [x])) as [_|Hn]; [done|].
           destruct Hn. apply elem_of_app. by left.
        -- destruct (decide (k ∈ seen ++ [x]))
             as [[?|?%list_elem_of_singleton]%elem_of_app|_]; done.
  - eauto 10.
Qed.

(** X6: the report of [restore_all_steps].  A stage is reported [True]
    exactly when [force] is off and the session already held a valid
    entry for it, or the durable tier yields a value other than [None]
    for it; what happens to one stage does not depend on the others.
    A stage reported [True] is in the session afterwards, a stage
    reported [False] keeps the session entry it had, and session keys
    outside the catalog are never touched. *)
Theorem restore_all_steps_report self force w :
  ∃ results w',
    restore_all_steps self force w = (Return results, w') ∧
    fs w' = fs w ∧
    (∀ k, results !! k = Some true ↔
          k ∈ dict_keys STEP_MAPPINGS ∧
          (force = false ∧ session_valid (session_state w) k = true
           ∨ is_None (durable_value self (fs w) k) = false)) ∧
    (∀ k, results !! k = Some true → is_Some (session_state w' !! k)) ∧
    (∀ k, results !! k = Some false →
          session_state w' !! k = session_state w !! k) ∧
    (∀ j, j ∉ dict_keys STEP_MAPPINGS →
          session_state w' !! j = session_state w !! j).
Proof.
  destruct (restore_all_steps_lookup self force w)
    as (results & w' & Hrun & Hs & Hf & Hres).
  exists results, w'. split; [exact Hrun|]. split; [exact Hf|].
  assert (Hflag : ∀ k, restore_flag self (fs w) force (session_state w) k = true ↔
            force = false ∧ session_valid (session_state w) k = true
            ∨ is_None (durable_value self (fs w) k) = false).
  { intros k. unfold restore_flag.
    rewrite orb_true_iff, andb_true_iff, !negb_true_iff. tauto. }
  split; [|split; [|split]].
  - intros k. rewrite Hres. destruct (decide (k ∈ dict_keys STEP_MAPPINGS)) as [Hk|Hk].
    + rewrite <-Hflag. split; [by intros [= ->] | by intros [_ ->]].
    + split; [done | by intros [? _]].
  - intros k. rewrite Hres, Hs, restore_fold_lookup.
    destruct (decide (k ∈ dict_keys STEP_MAPPINGS)) as [Hk|Hk]; [|done].
    intros [= Hk1]. apply Hflag in Hk1. unfold restore_entry, session_valid in *.
    destruct Hk1 as [[-> Hvalid]|Hd].
    + destruct (session_state w !! k) as [v|]; [|done].
      rewrite Hvalid. cbn [negb andb]. by eexists.
    + rewrite Hd. destruct (session_state w !! k) as [v|].
      * destruct (negb force && _); by eexists.
      * rewrite andb_false_r. by eexists.
  - intros k. rewrite Hres, Hs, restore_fold_lookup.
    destruct (decide (k ∈ dict_keys STEP_MAPPINGS)) as [Hk|Hk]; [|done].
    intros [= Hk0]. unfold restore_flag in Hk0.
    apply orb_false_iff in Hk0 as [Hskip Hd]. apply negb_false_iff in Hd.
    unfold restore_entry. unfold session_valid in Hskip.
    rewrite Hd. by destruct (negb force && _).
  - intros j Hj. rewrite Hs, restore_fold_lookup. by rewrite decide_False.
Qed.

(** X7: who wins.  Without [force], [restore_all_steps] leaves every
    valid session entry exactly as it was, whatever the disk holds, and
    fills a catalog stage that had no valid entry with the value of its
    file when that value is not [None].  With [force], every catalog
    stage whose file yields a value other than [None] ends up holding
    that value, whatever the session held. *)
Theorem restore_all_steps_precedence self w :
  (∃ results w',
     restore_all_steps self false w = (Return results, w') ∧
     (∀ j, session_valid (session_state w) j = true →
           session_state w' !! j = session_state w !! j) ∧
     (∀ k, k ∈ dict_keys STEP_MAPPINGS →
           session_valid (session_state w) k = false →
           is_None (durable_value self (fs w) k) = false →
           session_state w' !! k = Some (durable_value self (fs w) k))) ∧
  (∃ results w',
     restore_all_steps self true w = (Return results, w') ∧
     (∀ k, k ∈ dict_keys STEP_MAPPINGS →
           is_None (durable_value self (fs w) k) = false →
           session_state w' !! k = Some (durable_value self (fs w) k))).
Proof.
  split.
  - destruct (restore_all_steps_lookup self false w)
      as (results & w' & Hrun & Hs & _).
    exists results, w'. split; [exact Hrun|]. split.
    + intros j Hvalid. rewrite Hs, restore_fold_lookup.
      destruct (decide _); [|done].
      unfold restore_entry. unfold session_valid in Hvalid.
      destruct (session_state w !! j) as [v|]; [|done]. by rewrite Hvalid.
    + intros k Hk Hinvalid Hd. rewrite Hs, restore_fold_lookup, decide_True by done.
      unfold restore_entry. unfold session_valid in Hinvalid.
      destruct (session_state w !! k) as [v|]; rewrite ?Hinvalid, Hd; done.
  - destruct (restore_all_steps_lookup self true w)
      as (results & w' & Hrun & Hs & _).
    exists results, w'. split; [exact Hrun|].
    intros k Hk Hd. rewrite Hs, restore_fold_lookup, decide_True by done.
    unfold restore_entry. by rewrite Hd.
Qed.

(** *** Writing one stage *)

(** What [save_step_result] does, in full. *)
Lemma save_step_result_run self step_key data w :
  ∃ w', save_step_result self step_key data w
          = (Return (writable self (fs w) step_key && dumps data), w') ∧
        session_state w' = session_state w ∧
        fs w' = (if writable self (fs w) step_key
                 then match step_path self step_key with
                      | Some p => <[p := File (dump_bytes data)]> (fs w)
                      | None => fs w
                      end
                 else fs w).
Proof.
  unfold save_step_result, writable, dumps, dump_bytes, step_path, dict_contains,
    mapping_getitem.
  destruct (dict_get STEP_MAPPINGS step_key) as [f|]; cbn -[dict_get is_dir].
  2: { py_finish. }
  py_unfold. unfold open_wb_pickle_dump, print. cbn -[is_dir].
  destruct (fs w !! (artifacts_dir self </> f)) as [[b|]|] eqn:Hp;
    cbn -[is_dir]; rewrite ?Hp; cbn -[is_dir];
    try destruct (is_dir _ _); try destruct (pickle_dump data) as [b'|b'];
    cbn -[is_dir]; py_finish.
Qed.

(** X8: [save_step_result] never raises and never touches the
    session.  It answers [True] exactly when the stage can be opened
    for writing (it is in the catalog, no directory sits at its path,
    and a new file has a directory to go into) and the payload
    pickles.  Whenever the file could be opened it afterwards holds
    what [pickle.dump] wrote; otherwise the durable tier is unchanged;
    and no path but the stage's own is ever written. *)
Theorem save_step_result_outcome self step_key data w :
  ∃ ok w',
    save_step_result self step_key data w = (Return ok, w') ∧
    (ok = true ↔ writable self (fs w) step_key = true ∧ dumps data = true) ∧
    session_state w' = session_state w ∧
    (writable self (fs w) step_key = false → fs w' = fs w) ∧
    (∀ p, step_path self step_key = Some p →
          writable self (fs w) step_key = true →
          fs w' !! p = Some (File (dump_bytes data))) ∧
    (∀ q, step_path self step_key ≠ Some q → fs w' !! q = fs w !! q).
Proof.
  destruct (save_step_result_run self step_key data w) as (w' & Hrun & Hs & Hf).
  eexists _, w'. split; [exact Hrun|]. split; [apply andb_true_iff|].
  split; [exact Hs|]. rewrite Hf. split; [|split].
  - by intros ->.
  - intros p Hp ->. by rewrite Hp, lookup_insert_eq.
  - intros q Hq. destruct (writable _ _ _); [|done].
    destruct (step_path self step_key) as [p|]; [|done].
    rewrite lookup_insert_ne; [done | congruence].
Qed.


(** *** Stages do not interfere *)

Lemma dict_get_elem_of (d : list (string * string)) k f :
  dict_get d k = Some f → (k, f) ∈ d.
Proof.
  induction d as [|[a b] d IH]; [done|]. simpl.
  destruct (decide (a = k)) as [->|_].
  - intros [= ->]. left.
  - intros Hget. right. by apply IH.
Qed.

Lemma NoDup_snd_inj (d : list (string * string)) k k' f :
  NoDup d.*2 → (k, f) ∈ d → (k', f) ∈ d → k = k'.
Proof.
  induction d as [|[a b] d IH]; [by intros _ ?%elem_of_nil|].
  rewrite fmap_cons. intros [Hnot Hnd]%NoDup_cons Hk Hk'.
  apply elem_of_cons in Hk as [Hk|Hk]; apply elem_of_cons in Hk' as [Hk'|Hk'].
  - congruence.
  - injection Hk as -> ->. destruct Hnot.
    apply list_elem_of_fmap. by exists (k', b).
  - injection Hk' as -> ->. destruct Hnot.
    apply list_elem_of_fmap. by exists (k, b).
  - by apply IH.
Qed.

Lemma STEP_MAPPINGS_files_NoDup : NoDup STEP_MAPPINGS.*2.
Proof. apply (bool_decide_unpack _). by vm_compute. Qed.

(** Two stages never share a file. *)
Lemma step_path_inj self k k' p :
  step_path self k = Some p → step_path self k' = Some p → k = k'.
Proof.
  unfold step_path, path_div.
  destruct (dict_get STEP_MAPPINGS k) as [f|] eqn:Hk; [|done].
  destruct (dict_get STEP_MAPPINGS k') as [f'|] eqn:Hk'; [|done].
  intros [= <-] [= Heq]. apply app_inv_head in Heq. injection Heq as ->.
  eapply NoDup_snd_inj; eauto using STEP_MAPPINGS_files_NoDup, dict_get_elem_of.
Qed.

(** X10: stages do not interfere.  Whatever [save_step_result] or
    [clear_step] does for one key, every other key reads from the
    durable tier exactly what it read before, and is present on disk
    exactly if it was. *)
Theorem stages_do_not_interfere self step_key other data clear_session clear_file w :
  other ≠ step_key →
  (∃ ok w1,
     save_step_result self step_key data w = (Return ok, w1) ∧
     durable_value self (fs w1) other = durable_value self (fs w) other ∧
     file_present self (fs w1) other = file_present self (fs w) other) ∧
  (∃ ok w1,
     clear_step self step_key clear_session clear_file w = (Return ok, w1) ∧
     durable_value self (fs w1) other = durable_value self (fs w) other ∧
     file_present self (fs w1) other = file_present self (fs w) other).
Proof.
  intros Hne. split.
  - destruct (save_step_result_run self step_key data w) as (w1 & Hrun & _ & Hf).
    eexists _, w1. split; [exact Hrun|].
    assert (Hsame : ∀ q, step_path self other = Some q → fs w1 !! q = fs w !! q).
    { intros q Hq. rewrite Hf. destruct (writable _ _ _); [|done].
      destruct (step_path self step_key) as [p|] eqn:Hp; [|done].
      rewrite lookup_insert_ne; [done|]. intros ->.
      by apply Hne, (step_path_inj self other step_key q). }
    unfold durable_value, file_present.
    destruct (step_path self other) as [q|]; [|done]. by rewrite Hsame.
  - destruct (clear_step_run self step_key clear_session clear_file w)
      as (w1 & Hrun & _ & Hf & _).
    eexists _, w1. split; [exact Hrun|].
    assert (Hsame : ∀ q, step_path self other = Some q → fs w1 !! q = fs w !! q).
    { intros q Hq. rewrite Hf. destruct clear_file; [|done].
      rewrite cleared_fs_lookup. destruct (fs w !! q) as [[b|]|]; [|done..].
      rewrite decide_False; [done|]. intros Hp.
      by apply Hne, (step_path_inj self other step_key q). }
    unfold durable_value, file_present.
    destruct (step_path self other) as [q|]; [|done]. by rewrite Hsame.
Qed.

(** *** Resuming *)

(** X12: resuming after the session is lost.  Suppose
    [save_to_session_and_file] answered [True] for a payload other than
    [None], with a codec that loads back what it dumped.  Replace the
    session by any session that has no valid entry for the stage (a
    fresh session after a restart, or the old one after [clear_step]).
    Then [load_from_file_to_session] without [force] answers [True] and
    puts the payload back, and so does [restore_all_steps], which
    reports [True] for the stage. *)
Theorem resume_after_session_loss `{!PickleRoundTrip blob}
    self step_key data w w1 (s' : gmap string value) :
  save_to_session_and_file self step_key data w = (Return true, w1) →
  is_None data = false →
  session_valid s' step_key = false →
  (∃ w2, load_from_file_to_session self step_key false (set_session s' w1)
         = (Return true, w2) ∧
         session_state w2 !! step_key = Some data) ∧
  (∃ results w3, restore_all_steps self false (set_session s' w1)
                 = (Return results, w3) ∧
                 results !! step_key = Some true ∧
                 session_state w3 !! step_key = Some data).
Proof.
  intros Hboth Hdata Hlost.
  destruct (save_to_session_and_file_run self step_key data w)
    as (ok & w' & w0 & Hrun & _ & Hsave & Hfs).
  rewrite Hboth in Hrun. injection Hrun as <- <-.
  destruct (save_step_result_true _ _ _ _ _ Hsave) as (p & b & Hp & Hdump & Hfs0).
  assert (Hd : durable_value self (fs (set_session s' w1)) step_key = data).
  { unfold durable_value. cbn [fs set_session].
    rewrite Hp, Hfs, Hfs0, lookup_insert_eq.
    by rewrite (pickle_load_dump _ _ Hdump). }
  split.
  - destruct (load_from_file_to_session_run self step_key false (set_session s' w1))
      as (w2 & Hload & Hs & _).
    rewrite Hd in Hload, Hs. cbn [session_state set_session] in Hload, Hs.
    rewrite Hlost, Hdata in Hload. rewrite Hlost in Hs.
    exists w2. split; [exact Hload|].
    rewrite Hs. unfold install. rewrite Hdata. apply lookup_insert_eq.
  - destruct (restore_all_steps_lookup self false (set_session s' w1))
      as (results & w3 & Hrun & Hs & _ & Hres).
    pose proof (step_path_known _ _ _ Hp) as Hk.
    exists results, w3. split; [exact Hrun|]. split.
    + rewrite Hres, decide_True by done. unfold restore_flag.
      rewrite Hd, Hdata. by rewrite orb_true_r.
    + rewrite Hs, restore_fold_lookup, decide_True by done.
      rewrite Hd. cbn [session_state set_session]. unfold restore_entry.
      unfold session_valid in Hlost.
      destruct (s' !! step_key) as [v|]; rewrite ?Hlost, Hdata; done.
Qed.

(** *** Building a manager *)

Lemma mkdir_fold_lookup_all (f : gmap Path (node blob)) (ps : list Path) (q : Path) :
  foldr (λ q f, <[q := Dir]> f) f ps !! q
  = if decide (q ∈ ps) then Some Dir else f !! q.
Proof.
  destruct (decide (q ∈ ps)) as [Hin|Hnin]; [by apply mkdir_fold_lookup|].
  induction ps as [|p ps IH]; [done|].
  cbn [foldr]. rewrite lookup_insert_ne.
  - apply IH. intros Hq. apply Hnin. by right.
  - intros ->. apply Hnin. left.
Qed.

Lemma path_prefixes_from_length (base rest q : Path) :
  q ∈ path_prefixes_from base rest → (length q ≤ length base + length rest)%nat.
Proof.
  revert base. induction rest as [|c rest IH]; intros base; [by intros ?%elem_of_nil|].
  cbn [path_prefixes_from]. intros [->|Hq]%elem_of_cons.
  - rewrite length_app. cbn [length]. lia.
  - apply IH in Hq. rewrite length_app in Hq. cbn [length] in *. lia.
Qed.

(** The file of a stage lies below the artifacts directory, so [mkdir]
    never walks through it. *)
Lemma step_path_not_prefix self step_key p :
  step_path self step_key = Some p → p ∉ path_prefixes (artifacts_dir self).
Proof.
  unfold step_path, path_div.
  destruct (dict_get STEP_MAPPINGS step_key) as [f|]; [|done].
  intros [= <-] Hin. apply path_prefixes_from_length in Hin.
  rewrite length_app in Hin. cbn [length] in Hin. lia.
Qed.

(** What a successful [__init__] does to the world. *)
Lemma init_run (dir : Path) w inst w1 :
  __init__ dir w = (Return inst, w1) →
  inst = mkManager (next_oid w) dir ∧
  list_find (is_file (fs w)) (path_prefixes dir) = None ∧
  fs w1 = foldr (λ q f, <[q := Dir]> f) (fs w) (path_prefixes dir) ∧
  session_state w1 = session_state w ∧
  _manager_instance w1 = _manager_instance w ∧
  next_oid w1 = S (next_oid w).
Proof.
  unfold __init__, path_mkdir. cbn [fs log].
  destruct (list_find (is_file (fs w)) (path_prefixes dir)) as [[i q]|]; [done|].
  by intros [= <- <-].
Qed.

(** X13: building a manager is safe on a directory that is already
    in use.  When [__init__] returns, the artifacts directory exists,
    the session is untouched, every regular file that was on disk is
    still there with its content, and every stage reads from the
    durable tier exactly what it read before.  Building a second
    manager on the same directory succeeds as well, changes nothing on
    disk, and yields a distinct object. *)
Theorem init_preserves_results (dir : Path) w inst w1 :
  __init__ dir w = (Return inst, w1) →
  artifacts_dir inst = dir ∧
  is_dir (fs w1) dir = true ∧
  session_state w1 = session_state w ∧
  (∀ q b, fs w !! q = Some (File b) → fs w1 !! q = Some (File b)) ∧
  (∀ k, durable_value inst (fs w1) k = durable_value inst (fs w) k) ∧
  (∃ inst2 w2, __init__ dir w1 = (Return inst2, w2) ∧
               fs w2 = fs w1 ∧ artifacts_dir inst2 = dir ∧ oid inst2 ≠ oid inst).
Proof.
  intros Hinit.
  destruct (init_run _ _ _ _ Hinit) as (-> & Hfind & Hfs & Hs & _ & Hn).
  apply list_find_None in Hfind.
  assert (Hlook : ∀ q, fs w1 !! q
                       = if decide (q ∈ path_prefixes dir) then Some Dir else fs w !! q).
  { intros q. rewrite Hfs. apply mkdir_fold_lookup_all. }
  split; [done|]. split; [|split; [exact Hs|split; [|split]]].
  - unfold is_dir. destruct dir as [|c dir]; [done|].
    rewrite Hlook, decide_True; [done|].
    apply (path_prefixes_from_last [] (c :: dir)). done.
  - intros q b Hq. rewrite Hlook. destruct (decide (q ∈ path_prefixes dir)) as [Hin|]; [|done].
    rewrite Forall_forall in Hfind. specialize (Hfind q Hin).
    destruct Hfind. unfold is_file. by rewrite Hq.
  - intros k. unfold durable_value.
    destruct (step_path _ k) as [p|] eqn:Hp; [|done].
    rewrite Hlook, decide_False; [done|].
    by apply (step_path_not_prefix (mkManager (next_oid w) dir) k).
  - assert (Hfind1 : list_find (is_file (fs w1)) (path_prefixes dir) = None).
    { apply list_find_None, Forall_forall. intros q Hq.
      unfold is_file. rewrite Hlook, decide_True by done. by intros []. }
    unfold __init__, path_mkdir. cbn [fs log]. rewrite Hfind1.
    eexists _, _. split; [reflexivity|]. cbn [fs set_fs log oid artifacts_dir].
    split; [|split; [done | rewrite Hn; lia]].
    apply map_eq. intros q. rewrite mkdir_fold_lookup_all, Hlook.
    by destruct (decide (q ∈ path_prefixes dir)).
Qed.

(** X14: a regular file in the way of the artifacts directory.  If
    no manager exists yet and a regular file sits at the directory's
    path or above it, the first call raises the error of [mkdir], no
    instance is stored and the disk is unchanged, so the accessor is
    still unconfigured: a call without argument keeps raising
    [ValueError]. *)
Theorem first_call_blocked_by_file (w : world blob) (dir q : Path) b :
  _manager_instance w = None →
  q ∈ path_prefixes dir →
  fs w !! q = Some (File b) →
  ∃ e w',
    get_step_results_manager (Some dir) w = (Raise e, w') ∧
    (∃ q', e = FileExistsError q' ∨ e = NotADirectoryError q') ∧
    _manager_instance w' = None ∧ fs w' = fs w ∧
    session_state w' = session_state w ∧
    get_step_results_manager None w'
    = (Raise (ValueError "artifacts_dir must be provided for first initialization"), w').
Proof.
  intros Hnone Hq Hfile.
  destruct (list_find_elem_of (is_file (fs w)) (path_prefixes dir) q Hq)
    as [[i q'] Hfind].
  { unfold is_file. by rewrite Hfile. }
  unfold get_step_results_manager at 1. rewrite Hnone.
  py_unfold. unfold __init__, path_mkdir. cbn [fs log]. rewrite Hfind.
  eexists _, _. split; [reflexivity|]. split.
  { exists q'. destruct (decide (q' = dir)); [by left | by right]. }
  cbn [_manager_instance fs session_state log].
  repeat (split; [done|]).
  unfold get_step_results_manager. cbn [_manager_instance log]. by rewrite Hnone.
Qed.

(** *** Reading one stage from disk *)

(** X11: [load_step_result], case by case.  It never raises and never
    changes a store.  For a key outside the catalog it returns [None]
    without any file-system call.  For a catalog stage it tests the
    path; with nothing there it returns [None] and opens nothing; a
    regular file is opened and its unpickled content returned; a file
    that does not unpickle, or a directory, makes it print the error
    and return [None]. *)
Theorem load_step_result_cases self step_key w :
  ∃ data w',
    load_step_result self step_key w = (Return data, w') ∧ same_stores w w' ∧
    match step_path self step_key with
    | None => data = VNone ∧ w' = w
    | Some p =>
        match fs w !! p with
        | None => data = VNone ∧ trace w' = EvExists p :: trace w
        | Some (File b) =>
            match pickle_load b with
            | Some v => data = v ∧ trace w' = EvOpenRead p :: EvExists p :: trace w
            | None =>
                data = VNone ∧
                trace w' = EvPrint (ErrorLoading step_key UnpicklingError)
                             :: EvOpenRead p :: EvExists p :: trace w
            end
        | Some Dir =>
            data = VNone ∧
            trace w' = EvPrint (ErrorLoading step_key (IsADirectoryError p))
                         :: EvOpenRead p :: EvExists p :: trace w
        end
    end.
Proof.
  unfold load_step_result, step_path, dict_contains, mapping_getitem.
  destruct (dict_get STEP_MAPPINGS step_key) as [f|]; cbn -[dict_get].
  2: { exists VNone, w. split; [done|]. split; [apply same_stores_refl | done]. }
  py_unfold. rewrite path_exists_run. cbn [fs log].
  unfold open_rb_pickle_load, print. cbn [fs log].
  destruct (fs w !! (artifacts_dir self </> f)) as [[b|]|] eqn:Hp;
    cbn -[dict_get]; rewrite ?Hp; cbn -[dict_get];
    try destruct (pickle_load b); cbn -[dict_get];
    eexists _, _; (split; [reflexivity|]); split; done.
Qed.

End Coverage.

(** ** Concrete runs *)

#[export] Instance reference_roundtrip : PickleRoundTrip (option value).
Proof.
  intros v b. unfold pickle_dump, pickle_load, reference_pickle.
  destruct (picklable v); by intros [= <-].
Qed.

(** C5 at work: 42.5 written for ['training_time'] is read back. *)
Lemma save_then_load_roundtrip_witness :
  save_step_result manager0 "training_time" float_42_5 fresh_world
    = (Return true,
       snd (save_step_result manager0 "training_time" float_42_5 fresh_world)) ∧
  dict_contains STEP_MAPPINGS "training_time" = true ∧
  ∃ w2, load_step_result manager0 "training_time"
          (snd (save_step_result manager0 "training_time" float_42_5 fresh_world))
        = (Return float_42_5, w2) ∧
        same_stores
          (snd (save_step_result manager0 "training_time" float_42_5 fresh_world)) w2.
Proof.
  split; [by vm_compute|].
  apply (save_then_load_roundtrip manager0 "training_time" float_42_5 fresh_world).
  by vm_compute.
Defined.

(** C3 at work, on a key the catalog does not know. *)
Lemma save_both_then_load_valid_witness :
  _is_valid_data float_42_5 = true ∧
  ∃ ok w1,
    save_to_session_and_file manager0 "scratch" float_42_5 fresh_world = (Return ok, w1) ∧
    load_from_file_to_session manager0 "scratch" false w1 = (Return true, w1) ∧
    session_state w1 !! "scratch" = Some float_42_5.
Proof.
  split; [reflexivity|].
  apply (save_both_then_load_valid manager0 "scratch" float_42_5 fresh_world).
  reflexivity.
Defined.

(** C3 as stated fails for the payload [None]: the session entry is
    written, the file is written, and the load that follows answers
    [False]. *)
Lemma save_both_then_load_None_fails :
  fst (save_to_session_and_file manager0 "training_time" VNone fresh_world) = Return true ∧
  fst (load_from_file_to_session manager0 "training_time" false
         (snd (save_to_session_and_file manager0 "training_time" VNone fresh_world)))
  = Return false.
Proof. by vm_compute. Qed.

(** C2 as stated fails when the durable tier has nothing for the stage:
    the forced load answers [False], opens no file and the session
    entry is the one that was there. *)
Lemma load_force_keeps_entry_without_file :
  session_state session_only_world !! "training_time" = Some (VInt 7) ∧
  fs session_only_world !! (artifacts </> "training_time.pkl") = None ∧
  fst (load_from_file_to_session manager0 "training_time" true session_only_world)
  = Return false ∧
  session_state
    (snd (load_from_file_to_session manager0 "training_time" true session_only_world))
    !! "training_time" = Some (VInt 7) ∧
  trace (snd (load_from_file_to_session manager0 "training_time" true session_only_world))
  = [EvExists (artifacts </> "training_time.pkl")].
Proof. by vm_compute. Qed.

(** C1 as stated fails: clearing the file of a key outside the catalog
    answers [True]. *)
Lemma clear_step_unknown_returns_true :
  dict_contains STEP_MAPPINGS "bogus_step" = false ∧
  clear_step manager0 "bogus_step" true true fresh_world = (Return true, fresh_world).
Proof. by vm_compute. Qed.

(** C1 (amended) at work. *)
Lemma unknown_step_key_handling_witness :
  dict_contains STEP_MAPPINGS "bogus_step" = false ∧
  save_step_result manager0 "bogus_step" float_42_5 fresh_world
    = (Return false, log (EvPrint (WarnUnknownStepKey "bogus_step")) fresh_world) ∧
  load_step_result manager0 "bogus_step" fresh_world = (Return VNone, fresh_world) ∧
  ∃ w', clear_step manager0 "bogus_step" true true fresh_world = (Return true, w') ∧
        fs w' = fs fresh_world ∧ trace w' = trace fresh_world ∧
        session_state w' = delete "bogus_step" (session_state fresh_world).
Proof.
  split; [reflexivity|].
  apply (unknown_step_key_handling manager0 "bogus_step" float_42_5 true fresh_world).
  reflexivity.
Defined.

(** C10 as stated fails when the session holds a valid entry and
    [force] is off: the load answers [True] although the stage's file
    holds a pickled [None]. *)
Lemma load_without_force_succeeds_over_stored_None :
  fs stored_None_world !! (artifacts </> "training_time.pkl") = Some (File (Some VNone)) ∧
  pickle_load (Some VNone) = Some VNone ∧
  load_from_file_to_session manager0 "training_time" false stored_None_world
  = (Return true, stored_None_world).
Proof. by vm_compute. Qed.

(** C10 (amended) at work, with [force] on. *)
Lemma stored_None_reads_as_absent_witness :
  ∃ w2, load_from_file_to_session manager0 "training_time" true stored_None_world
        = (Return false, w2) ∧
        session_state w2 = session_state stored_None_world.
Proof.
  refine (proj1 (proj2 (proj2
    (stored_None_reads_as_absent manager0 "training_time"
       (artifacts </> "training_time.pkl") (Some VNone) true stored_None_world
       _ _ _ _)))).
  - reflexivity.
  - by vm_compute.
  - reflexivity.
  - by left.
Defined.

(** C9 at work: the first call builds the manager, the second call,
    made with another directory, returns the same object. *)
Lemma get_step_results_manager_singleton_witness :
  ∃ inst w',
    get_step_results_manager (Some artifacts) boot_world = (Return inst, w') ∧
    inst = mkManager (next_oid boot_world) artifacts ∧
    _manager_instance w' = Some inst ∧
    is_dir (fs w') artifacts = true ∧
    session_state w' = session_state boot_world ∧
    get_step_results_manager (Some ["elsewhere"]) w' = (Return inst, w').
Proof.
  apply (proj1 (proj2 get_step_results_manager_singleton)
           boot_world artifacts (Some ["elsewhere"])).
  - reflexivity.
  - by vm_compute.
Defined.

(** A restart: 42.5 is saved for ['training_time'], the session is
    lost, and the next load brings the value back into the session. *)
Example restart_restores_training_time :
  let saved := snd (save_step_result manager0 "training_time" float_42_5 fresh_world) in
  let restarted := set_session ∅ saved in
  let loaded := load_from_file_to_session manager0 "training_time" false restarted in
  fst loaded = Return true ∧
  session_state (snd loaded) !! "training_time" = Some float_42_5.
Proof. by vm_compute. Qed.

(** An empty dict put in the session by hand does not count as a
    result: the stage is still missing. *)
Example empty_dict_is_not_in_session :
  let w := set_session {[ "gnn_predictions" := VDict [] ]} fresh_world in
  fst (get_missing_steps manager0 w) = Return (dict_keys STEP_MAPPINGS) ∧
  fst (get_completed_steps manager0 w) = Return [].
Proof. by vm_compute. Qed.

(** ** Concrete runs of the further properties *)

Lemma training_time_in_catalog : "training_time" ∈ dict_keys STEP_MAPPINGS.
Proof. apply (bool_decide_unpack _). by vm_compute. Qed.

(** X2 at work. *)
Lemma clear_step_then_status_witness :
  ∃ w1 status w2 missing w3,
    clear_step manager0 "training_time" true true saved_world = (Return true, w1) ∧
    get_step_status manager0 w1 = (Return status, w2) ∧
    status !! "training_time" = Some (mkStatus false false None) ∧
    get_missing_steps manager0 w1 = (Return missing, w3) ∧
    "training_time" ∈ missing.
Proof.
  apply (clear_step_then_status manager0 "training_time" saved_world).
  - exact training_time_in_catalog.
  - by vm_compute.
Defined.

(** X4 at work. *)
Lemma clear_all_steps_then_all_missing_witness :
  ∃ results w1 w2 w3,
    clear_all_steps manager0 true true saved_world = (Return results, w1) ∧
    (∀ k, k ∈ dict_keys STEP_MAPPINGS → results !! k = Some true) ∧
    get_missing_steps manager0 w1 = (Return (dict_keys STEP_MAPPINGS), w2) ∧
    get_completed_steps manager0 w1 = (Return [], w3).
Proof.
  apply (clear_all_steps_then_all_missing manager0 saved_world).
  apply Forall_forall. apply (bool_decide_unpack _). by vm_compute.
Defined.


(** X10 at work. *)
Lemma stages_do_not_interfere_witness :
  (∃ ok w1,
     save_step_result manager0 "inference_time" float_42_5 saved_world = (Return ok, w1) ∧
     durable_value manager0 (fs w1) "training_time"
       = durable_value manager0 (fs saved_world) "training_time" ∧
     file_present manager0 (fs w1) "training_time"
       = file_present manager0 (fs saved_world) "training_time") ∧
  (∃ ok w1,
     clear_step manager0 "inference_time" true true saved_world = (Return ok, w1) ∧
     durable_value manager0 (fs w1) "training_time"
       = durable_value manager0 (fs saved_world) "training_time" ∧
     file_present manager0 (fs w1) "training_time"
       = file_present manager0 (fs saved_world) "training_time").
Proof.
  apply (stages_do_not_interfere manager0 "inference_time" "training_time"
           float_42_5 true true saved_world).
  discriminate.
Defined.

(** X12 at work: 42.5 is written, the session starts afresh, and both
    ways of restoring bring it back. *)
Lemma resume_after_session_loss_witness :
  (∃ w2, load_from_file_to_session manager0 "training_time" false
           (set_session ∅
              (snd (save_to_session_and_file manager0 "training_time" float_42_5
                      fresh_world)))
         = (Return true, w2) ∧
         session_state w2 !! "training_time" = Some float_42_5) ∧
  (∃ results w3, restore_all_steps manager0 false
                   (set_session ∅
                      (snd (save_to_session_and_file manager0 "training_time" float_42_5
                              fresh_world)))
                 = (Return results, w3) ∧
                 results !! "training_time" = Some true ∧
                 session_state w3 !! "training_time" = Some float_42_5).
Proof.
  apply (resume_after_session_loss manager0 "training_time" float_42_5 fresh_world).
  - by vm_compute.
  - reflexivity.
  - reflexivity.
Defined.

(** X13 at work: a second manager on a directory that holds a result. *)
Lemma init_preserves_results_witness :
  artifacts_dir (mkManager 1 artifacts) = artifacts ∧
  is_dir (fs (snd (__init__ artifacts saved_world))) artifacts = true ∧
  session_state (snd (__init__ artifacts saved_world)) = session_state saved_world ∧
  (∀ q b, fs saved_world !! q = Some (File b) →
          fs (snd (__init__ artifacts saved_world)) !! q = Some (File b)) ∧
  (∀ k, durable_value (mkManager 1 artifacts) (fs (snd (__init__ artifacts saved_world))) k
        = durable_value (mkManager 1 artifacts) (fs saved_world) k) ∧
  (∃ inst2 w2, __init__ artifacts (snd (__init__ artifacts saved_world))
               = (Return inst2, w2) ∧
               fs w2 = fs (snd (__init__ artifacts saved_world)) ∧
               artifacts_dir inst2 = artifacts ∧
               oid inst2 ≠ oid (mkManager 1 artifacts)).
Proof.
  apply (init_preserves_results artifacts saved_world).
  by vm_compute.
Defined.

(** X14 at work. *)
Lemma first_call_blocked_by_file_witness :
  ∃ e w',
    get_step_results_manager (Some artifacts) blocked_world = (Raise e, w') ∧
    (∃ q', e = FileExistsError q' ∨ e = NotADirectoryError q') ∧
    _manager_instance w' = None ∧ fs w' = fs blocked_world ∧
    session_state w' = session_state blocked_world ∧
    get_step_results_manager None w'
    = (Raise (ValueError "artifacts_dir must be provided for first initialization"), w').
Proof.
  apply (first_call_blocked_by_file blocked_world artifacts artifacts None).
  - reflexivity.
  - left.
  - by vm_compute.
Defined.
